(** * LiftOff: backend selection, local-first fallback and response parsing

    A shallow embedding of [src/core.py], [src/backend/openai_backend.py] and
    [src/backend/hf_backend.py].

    Python code that prints, reads the environment, calls a provider and may
    raise is written in a small monad [M]: a run yields the chronological list
    of the effects it performed together with either the exception it raised or
    the value it returned.  Everything that lives outside the three source
    files (the operating system, the [openai], [transformers], [torch] and
    [huggingface_hub] packages, the [json] module, and the [liftoff.utils]
    helpers) is a field of the record [World]; the theorems hold for every
    world.

    Python [str] values are Rocq [string]s, one [ascii] standing for one
    character; the one literal of the program with characters beyond that
    range, the header of the validator's report, is held in UTF-8.
    [None]-able strings are [option string]. *)

From Stdlib Require Import String Ascii List Bool Arith Lia ZArith DecimalString.
Import ListNotations.
Local Open Scope string_scope.
Set Warnings "-register-all".

(* ===================================================================== *)
(** ** Strings *)

(** The newline character of the source's ["\n"]. *)
Definition nl : string := String (ascii_of_nat 10) EmptyString.

(** The double-quote character, and a text between double quotes. *)
Definition dquote : ascii := ascii_of_nat 34.

Definition quoted (s : string) : string :=
  String dquote (s ++ String dquote EmptyString).

(** [s[:n]] on a Python string. *)
Definition str_slice_to (n : nat) (s : string) : string := substring 0 n s.

(** [needle in hay] on Python strings. *)
Fixpoint contains (hay needle : string) : bool :=
  if prefix needle hay then true
  else match hay with
       | EmptyString => false
       | String _ rest => contains rest needle
       end.

(** [str(n)] for a natural number. *)
Definition str_of_nat (n : nat) : string := NilZero.string_of_uint (Nat.to_uint n).

(** [str(z)] for an integer. *)
Definition str_of_Z (z : Z) : string := NilZero.string_of_int (Z.to_int z).

(* ===================================================================== *)
(** ** Python values *)

(** What [json.loads] produces.  A float keeps the text it was written with;
    an object is the [dict] in insertion order. *)
Inductive json : Type :=
| JNull
| JBool (b : bool)
| JInt (z : Z)
| JFloat (lexeme : string)
| JStr (s : string)
| JArr (items : list json)
| JObj (members : list (string * json)).

(** [isinstance(v, dict)]. *)
Definition is_dict (v : json) : bool :=
  match v with JObj _ => true | _ => false end.

(** [isinstance(v, str)]. *)
Definition is_str (v : json) : bool :=
  match v with JStr _ => true | _ => false end.

(** The FileTree contract: a mapping whose keys and values are all strings
    (keys of a parsed JSON object are strings by construction). *)
Definition is_file_tree (v : json) : bool :=
  match v with
  | JObj members => forallb (fun kv => is_str (snd kv)) members
  | _ => false
  end.

(** [d[k] = v] on a [dict]: an existing key keeps its place. *)
Fixpoint dict_set (d : list (string * json)) (k : string) (v : json)
  : list (string * json) :=
  match d with
  | [] => [(k, v)]
  | (k', v') :: rest =>
      if String.eqb k' k then (k', v) :: rest else (k', v') :: dict_set rest k v
  end.

(** A value a provider hands back where the code expects text: a [str],
    [None], or an object of some other type. *)
Inductive pyobj : Type :=
| PyStr (s : string)
| PyNone
| PyOther (type_name : string).

(** The intent parser's result, a [Dict]; the core only passes it on. *)
Definition Metadata : Type := list (string * json).

(** Truthiness of an [Optional[str]]: [None] and [""] are falsy. *)
Definition truthy (o : option string) : bool :=
  match o with
  | Some s => negb (String.eqb s "")
  | None => false
  end.

(* ===================================================================== *)
(** ** Exceptions *)

Inductive exn_class : Type :=
| RuntimeError
| ValueError
| JSONDecodeError
| ImportError
| TypeError
| IndexError
| AttributeError
| RecursionError
| UnicodeEncodeError
| LibraryError (name : string)
| KeyboardInterrupt.

Record exn : Type := Exn { exn_cls : exn_class; exn_msg : string }.

(** [isinstance(e, Exception)]: of the classes above only
    [KeyboardInterrupt] derives from [BaseException] directly. *)
Definition is_Exception (e : exn) : bool :=
  match exn_cls e with
  | KeyboardInterrupt => false
  | _ => true
  end.

(** [isinstance(e, json.JSONDecodeError)]. *)
Definition is_JSONDecodeError (e : exn) : bool :=
  match exn_cls e with
  | JSONDecodeError => true
  | _ => false
  end.

(* ===================================================================== *)
(** ** Effects *)

Inductive dtype : Type := float16 | float32.

Record message : Type := Msg { role : string; content : string }.

Inductive event : Type :=
| EPrint (line : string)
| EGetenv (name : string)
| EOpenAIClient (api_key : option string)
| EChatCompletionsCreate (api_key : option string) (model : string)
    (messages : list message) (temperature : string)
| EPipelineLoad (task model device_map : string) (torch_dtype : dtype)
| EPipelineCall (model prompt : string) (max_new_tokens : nat) (do_sample : bool)
| EInferenceClient (model : string) (token : option string)
| ETextGeneration (model prompt : string) (max_new_tokens : nat)
    (temperature : string)
| EChatCompletion (model : string) (messages : list message) (max_tokens : nat)
| EParseIntent (prompt : string)
| EBuildMetaPrompt (prompt : string) (metadata : Metadata)
| EValidate (tree : json)
| EWrite (tree : json) (root : string).

(** A run: the effects performed, oldest first, and how the run ended. *)
Definition M (A : Type) : Type := list event * (exn + A).

Definition trace {A : Type} (m : M A) : list event := fst m.
Definition outcome {A : Type} (m : M A) : exn + A := snd m.

Definition ret {A : Type} (a : A) : M A := ([], inr a).

Definition raise {A : Type} (e : exn) : M A := ([], inl e).

Definition bind {A B : Type} (m : M A) (k : A -> M B) : M B :=
  match snd m with
  | inl e => (fst m, inl e)
  | inr a => ((fst m ++ fst (k a))%list, snd (k a))
  end.

(** [try: body except <caught> as e: handler e]. *)
Definition try_except {A : Type} (body : M A) (caught : exn -> bool)
    (handler : exn -> M A) : M A :=
  match snd body with
  | inl e =>
      if caught e then ((fst body ++ fst (handler e))%list, snd (handler e))
      else body
  | inr _ => body
  end.

(** One effect whose result the outside world decides. *)
Definition call {A : Type} (ev : event) (result : exn + A) : M A := ([ev], result).

(** A constructor of a third-party class: it raises or yields the object. *)
Definition construct {A : Type} (failure : option exn) (obj : A) : exn + A :=
  match failure with
  | Some e => inl e
  | None => inr obj
  end.

Declare Scope py_scope.
Delimit Scope py_scope with py.
Notation "x <- m ;; k" := (bind m (fun x => k))
  (at level 61, m at next level, right associativity) : py_scope.
Notation "m ;; k" := (bind m (fun _ => k))
  (at level 61, right associativity) : py_scope.
Local Open Scope py_scope.

(** [print(line)] of a line taken to be within the encoding of
    [sys.stdout]. *)
Definition print (line : string) : M unit := call (EPrint line) (inr tt).

(** [print(a, b)]: the arguments separated by one space. *)
Definition print2 (a b : string) : M unit := print (a ++ " " ++ b).

(** [for x in xs: body x]. *)
Fixpoint for_each {A : Type} (xs : list A) (body : A -> M unit) : M unit :=
  match xs with
  | [] => ret tt
  | x :: rest => body x ;; for_each rest body
  end.

(** [a or b] on [Optional[str]] operands; [b] is evaluated only when [a] is
    falsy. *)
Definition or_else (a : option string) (b : M (option string)) : M (option string) :=
  if truthy a then ret a else b.

(** [xs[0]]. *)
Definition first_item {A : Type} (xs : list A) : M A :=
  match xs with
  | x :: _ => ret x
  | [] => raise (Exn IndexError "list index out of range")
  end.

(** [raw[:n]]; only a [str] can be sliced. *)
Definition py_slice_to (raw : pyobj) (n : nat) : M string :=
  match raw with
  | PyStr s => ret (str_slice_to n s)
  | PyNone => raise (Exn TypeError "'NoneType' object is not subscriptable")
  | PyOther ty => raise (Exn TypeError ("'" ++ ty ++ "' object is not subscriptable"))
  end.

(* ===================================================================== *)
(** ** The outside world *)

(** [OpenAI(api_key=...)]. *)
Record OpenAIClient : Type := { oc_api_key : option string }.

(** A chat completion: [resp.choices[i].message.content]. *)
Record choice : Type := { message_content : pyobj }.
Record completion : Type := { choices : list choice }.

(** The object [transformers.pipeline(...)] returns. *)
Record Pipeline : Type := {
  pl_task : string;
  pl_model : string;
  pl_device_map : string;
  pl_torch_dtype : dtype
}.

(** One element of a pipeline's output: [{'generated_text': ...}]. *)
Record generation : Type := { generated_text : pyobj }.

(** [InferenceClient(model, token=...)]. *)
Record InferenceClient : Type := { ic_model : string; ic_token : option string }.

(** What [client.text_generation] may hand back: a [str]; an object with a
    [get] method (a mapping), of which the code reads the key
    ["generated_text"] and otherwise [str(resp)]; or an object without
    [get]. *)
Inductive tg_response : Type :=
| TGStr (s : string)
| TGMapping (generated : option pyobj) (as_str : string)
| TGOpaque (type_name : string).

Record World : Type := {
  (** [os.getenv(name)]. *)
  getenv : string -> option string;
  (** Whether [from openai import OpenAI] succeeded ([OpenAI is not None]). *)
  OpenAI_available : bool;
  (** [OpenAI(api_key=k)]: [Some e] when the constructor raises [e]. *)
  OpenAI_new : option string -> option exn;
  (** [client.chat.completions.create(model=, messages=, temperature=)]. *)
  chat_completions_create :
    OpenAIClient -> string -> list message -> string -> exn + completion;
  (** [torch.cuda.is_available()]. *)
  torch_cuda_is_available : bool;
  (** [transformers.pipeline(task, model=, device_map=, torch_dtype=)]. *)
  transformers_pipeline : string -> string -> string -> dtype -> option exn;
  (** [pipeline(prompt, max_new_tokens=, do_sample=)]. *)
  pipeline_call : Pipeline -> string -> nat -> bool -> exn + list generation;
  (** Whether [from huggingface_hub import InferenceClient] succeeded. *)
  InferenceClient_available : bool;
  (** [InferenceClient(model, token=t)]. *)
  InferenceClient_new : string -> option string -> option exn;
  (** [client.text_generation(prompt, max_new_tokens=, temperature=)]. *)
  text_generation : InferenceClient -> string -> nat -> string -> exn + tg_response;
  (** [client.chat_completion(messages=, max_tokens=)]. *)
  chat_completion : InferenceClient -> list message -> nat -> exn + completion;
  (** [json.loads(s)] on a [str]: the parsed value, or the exception it
      raises, which is a [JSONDecodeError] on text outside the grammar and
      whatever the interpreter raises when the text exceeds one of its limits
      (a [RecursionError] on deep nesting, a [ValueError] on an integer of
      too many digits). *)
  json_loads : string -> exn + json;
  (** [sys.stdout.write(text)]: [Some msg] when the encoding of the stream
      lacks a character of [text], and the write raises a
      [UnicodeEncodeError] of message [msg]. *)
  stdout_encode_error : string -> option string;
  (** [str(v)] for a parsed value that is not itself a [str]. *)
  py_repr : json -> string;
  (** Modelled from the spec: [liftoff.utils.intent_parser.parse_intent], not
      among the sources; section 6 gives its shape, prompt text to
      metadata. *)
  parse_intent : string -> exn + Metadata;
  (** Modelled from the spec: [liftoff.utils.meta_prompt.build_meta_prompt],
      not among the sources; prompt text and metadata to the provider-ready
      prompt. *)
  build_meta_prompt : string -> Metadata -> exn + string;
  (** Modelled from the spec: [liftoff.utils.validator.validate_file_tree],
      not among the sources; a file tree to a sequence of issue strings. *)
  validate_file_tree : json -> exn + list string;
  (** Modelled from the spec: [liftoff.utils.file_writer.write_file_tree],
      not among the sources; it writes the tree under a directory or fails
      with a filesystem error. *)
  write_file_tree : json -> string -> option exn
}.

(** [os.getenv(name)] as an effect. *)
Definition os_getenv (w : World) (name : string) : M (option string) :=
  call (EGetenv name) (inr (getenv w name)).

(** [print(text)] of text that may lie outside the encoding of [sys.stdout]:
    the line is written, or the stream raises [UnicodeEncodeError]. *)
Definition print_text (w : World) (text : string) : M unit :=
  match stdout_encode_error w text with
  | Some msg => raise (Exn UnicodeEncodeError msg)
  | None => print text
  end.

(** [print(a, text)] with [a] an ASCII literal: the arguments are written one
    by one, so the stream is asked about [text] alone.  What was written of
    the line before a failing argument is not recorded. *)
Definition print2_text (w : World) (a text : string) : M unit :=
  match stdout_encode_error w text with
  | Some msg => raise (Exn UnicodeEncodeError msg)
  | None => print2 a text
  end.

(** [str(v)]: a [str] is itself. *)
Definition py_str (w : World) (v : json) : string :=
  match v with
  | JStr s => s
  | _ => py_repr w v
  end.

(** [json.loads(raw)]: on text, what the decoder returns or raises; a
    [TypeError] on an argument that is not text. *)
Definition py_json_loads (w : World) (raw : pyobj) : M json :=
  match raw with
  | PyStr s =>
      match json_loads w s with
      | inl e => raise e
      | inr v => ret v
      end
  | PyNone =>
      raise (Exn TypeError
               "the JSON object must be str, bytes or bytearray, not NoneType")
  | PyOther ty =>
      raise (Exn TypeError
               ("the JSON object must be str, bytes or bytearray, not " ++ ty))
  end.



Definition is_getenv_event (ev : event) : bool :=
  match ev with
  | EGetenv _ => true
  | _ => false
  end.

(* ===================================================================== *)
(** ** [src/backend/openai_backend.py] *)

Module OpenAIBackend.

Record t : Type := { client : OpenAIClient }.

Definition system_instruction : string :=
  "You are a code scaffolding engine that outputs JSON only.".

(** [OpenAIBackend.__init__]. *)
Definition __init__ (w : World) (api_key : option string) : M t :=
  if negb (OpenAI_available w) then
    raise (Exn ImportError "openai package is required for OpenAIBackend")
  else
    c <- call (EOpenAIClient api_key)
           (construct (OpenAI_new w api_key) {| oc_api_key := api_key |}) ;;
    ret {| client := c |}.

(** Lines 21-29 of [generate_project]: the single provider call and the text
    taken from its first choice. *)
Definition raw_output (w : World) (self : t) (meta_prompt : string) : M pyobj :=
  let messages :=
    [ Msg "system" system_instruction; Msg "user" meta_prompt ] in
  completion <- call (EChatCompletionsCreate (oc_api_key (client self))
                        "gpt-4o-mini" messages "0.2")
                  (chat_completions_create w (client self)
                     "gpt-4o-mini" messages "0.2") ;;
  c <- first_item (choices completion) ;;
  ret (message_content c).

(** [{str(k): str(v) for k, v in file_tree.items()}]. *)
Definition coerce_items (w : World) (members : list (string * json))
  : list (string * json) :=
  fold_left (fun d kv => dict_set d (fst kv) (JStr (py_str w (snd kv))))
            members [].

(** Lines 30-37 of [generate_project]: parse, check the shape, coerce. *)
Definition parse_output (w : World) (raw : pyobj) : M json :=
  file_tree <-
    try_except (py_json_loads w raw) is_JSONDecodeError
      (fun e =>
         excerpt <- py_slice_to raw 200 ;;
         raise (Exn ValueError
                  ("OpenAI backend returned non-JSON output: " ++ exn_msg e
                     ++ ": " ++ excerpt))) ;;
  match file_tree with
  | JObj members => ret (JObj (coerce_items w members))
  | _ => raise (Exn ValueError
                  "Expected JSON object mapping file paths to contents")
  end.

(** [OpenAIBackend.generate_project]. *)
Definition generate_project (w : World) (self : t) (meta_prompt : string)
    (metadata : Metadata) : M json :=
  raw <- raw_output w self meta_prompt ;;
  parse_output w raw.

End OpenAIBackend.

(* ===================================================================== *)
(** ** [src/backend/hf_backend.py] *)

Module HuggingFaceBackend.

Definition LOCAL_MODEL : string := "microsoft/Phi-3-mini-4k-instruct".

Record t : Type := {
  model_id : string;
  hf_token : option string;
  local_pipeline : option Pipeline;
  client : option InferenceClient
}.

(** [model_id or LOCAL_MODEL]. *)
Definition model_or_default (requested : option string) : string :=
  if truthy requested then
    match requested with Some m => m | None => LOCAL_MODEL end
  else LOCAL_MODEL.

(** Lines 38-48 of [__init__], the body of the [try]. *)
Definition load_local (w : World) (mid : string) : M Pipeline :=
  print2 "[Autoforge] Loading local model:" mid ;;
  let torch_dtype := if torch_cuda_is_available w then float16 else float32 in
  p <- call (EPipelineLoad "text-generation" mid "auto" torch_dtype)
         (construct (transformers_pipeline w "text-generation" mid "auto" torch_dtype)
            {| pl_task := "text-generation"; pl_model := mid;
               pl_device_map := "auto"; pl_torch_dtype := torch_dtype |}) ;;
  print "[Autoforge] Local model loaded successfully." ;;
  ret p.

(** The message of the [RuntimeError] of lines 58-62. *)
Definition load_failure_message (mid : string) : string :=
  "Could not load local model '" ++ mid ++ "'." ++ nl
  ++ "Install it via:  transformers, accelerate, bitsandbytes" ++ nl
  ++ "Or set HUGGINGFACE_TOKEN for API fallback.".

(** [HuggingFaceBackend.__init__]. *)
Definition __init__ (w : World) (token requested_model : option string) : M t :=
  let mid := model_or_default requested_model in
  tok <- or_else token (os_getenv w "HUGGINGFACE_TOKEN") ;;
  try_except
    (p <- load_local w mid ;;
     ret {| model_id := mid; hf_token := tok;
            local_pipeline := Some p; client := None |})
    is_Exception
    (fun e =>
       print2 "[Autoforge] Local model failed to load:" (exn_msg e) ;;
       if truthy tok && InferenceClient_available w then
         print "[Autoforge] Falling back to HuggingFace Inference API." ;;
         c <- call (EInferenceClient mid tok)
                (construct (InferenceClient_new w mid tok)
                   {| ic_model := mid; ic_token := tok |}) ;;
         ret {| model_id := mid; hf_token := tok;
                local_pipeline := None; client := Some c |}
       else
         raise (Exn RuntimeError (load_failure_message mid))).

(** [_run_local]. *)
Definition _run_local (w : World) (self : t) (prompt : string) : M pyobj :=
  match local_pipeline self with
  | Some p =>
      out <- call (EPipelineCall (pl_model p) prompt 1024 false)
               (pipeline_call w p prompt 1024 false) ;;
      g <- first_item out ;;
      ret (generated_text g)
  | None => raise (Exn TypeError "'NoneType' object is not callable")
  end.

(** The [try] body of [_run_hf], lines 79-86. *)
Definition hosted_text_generation (w : World) (self : t) (prompt : string)
  : M pyobj :=
  match client self with
  | Some c =>
      resp <- call (ETextGeneration (ic_model c) prompt 1024 "0.2")
                (text_generation w c prompt 1024 "0.2") ;;
      match resp with
      | TGStr s => ret (PyStr s)
      | TGMapping (Some v) _ => ret v
      | TGMapping None as_str => ret (PyStr as_str)
      | TGOpaque ty =>
          raise (Exn AttributeError ("'" ++ ty ++ "' object has no attribute 'get'"))
      end
  | None =>
      raise (Exn AttributeError
               "'NoneType' object has no attribute 'text_generation'")
  end.

(** The [except] body of [_run_hf], lines 88-92. *)
Definition hosted_chat_completion (w : World) (self : t) (prompt : string)
  : M pyobj :=
  match client self with
  | Some c =>
      resp <- call (EChatCompletion (ic_model c) [Msg "user" prompt] 1024)
                (chat_completion w c [Msg "user" prompt] 1024) ;;
      ch <- first_item (choices resp) ;;
      ret (message_content ch)
  | None =>
      raise (Exn AttributeError
               "'NoneType' object has no attribute 'chat_completion'")
  end.

(** [_run_hf]. *)
Definition _run_hf (w : World) (self : t) (prompt : string) : M pyobj :=
  try_except (hosted_text_generation w self prompt) is_Exception
    (fun _ => hosted_chat_completion w self prompt).

(** Lines 102-106 of [generate_project]: the path is chosen by
    [self.local_pipeline is not None]. *)
Definition raw_output (w : World) (self : t) (meta_prompt : string) : M pyobj :=
  match local_pipeline self with
  | Some _ => _run_local w self meta_prompt
  | None => _run_hf w self meta_prompt
  end.

(** Lines 108-115 of [generate_project]. *)
Definition parse_output (w : World) (raw : pyobj) : M json :=
  try_except (py_json_loads w raw) is_JSONDecodeError
    (fun e =>
       excerpt <- py_slice_to raw 400 ;;
       raise (Exn ValueError
                ("Model did not return valid JSON." ++ nl
                   ++ "Error: " ++ exn_msg e ++ nl ++ nl
                   ++ "Raw output:" ++ nl ++ excerpt ++ "..."))).

(** [HuggingFaceBackend.generate_project]. *)
Definition generate_project (w : World) (self : t) (meta_prompt : string)
    (metadata : Metadata) : M json :=
  raw <- raw_output w self meta_prompt ;;
  parse_output w raw.

End HuggingFaceBackend.

(* ===================================================================== *)
(** ** The backend interface *)

(** The duck-typed interface the orchestrator relies on: an object with a
    [generate_project(meta_prompt, metadata)] method. *)
Class GenerationBackend (B : Type) : Type := {
  generate_project : World -> B -> string -> Metadata -> M json
}.

#[export] Instance OpenAI_GenerationBackend : GenerationBackend OpenAIBackend.t := {
  generate_project := OpenAIBackend.generate_project
}.

#[export] Instance HuggingFace_GenerationBackend
  : GenerationBackend HuggingFaceBackend.t := {
  generate_project := HuggingFaceBackend.generate_project
}.

(** What [_choose_backend] can return. *)
Inductive Backend : Type :=
| BOpenAI (b : OpenAIBackend.t)
| BHuggingFace (b : HuggingFaceBackend.t).

(** Method dispatch on the object [_choose_backend] returned. *)
#[export] Instance Backend_GenerationBackend : GenerationBackend Backend := {
  generate_project w b :=
    match b with
    | BOpenAI o => generate_project w o
    | BHuggingFace h => generate_project w h
    end
}.

(** The text a backend obtained from its provider before parsing it. *)
Definition provider_output (w : World) (b : Backend) (meta_prompt : string)
  : M pyobj :=
  match b with
  | BOpenAI o => OpenAIBackend.raw_output w o meta_prompt
  | BHuggingFace h => HuggingFaceBackend.raw_output w h meta_prompt
  end.

(* ===================================================================== *)
(** ** [src/core.py] *)

Module LiftOff.

Record t : Type := {
  api_key : option string;
  hf_token : option string;
  output_dir : string
}.

(** The default of the [output_dir] parameter of [__init__]. *)
Definition DEFAULT_OUTPUT_DIR : string := "liftoff_output".

(** [LiftOff.__init__]. *)
Definition __init__ (w : World) (key token : option string) (dir : string) : M t :=
  k <- or_else key (os_getenv w "OPENAI_API_KEY") ;;
  tk <- or_else token (os_getenv w "HUGGINGFACE_TOKEN") ;;
  ret {| api_key := k; hf_token := tk; output_dir := dir |}.

(** The message of the [RuntimeError] of lines 155-158. *)
Definition no_backend_message : string :=
  "No available backend." ++ nl ++ nl
  ++ "Set OPENAI_API_KEY or HUGGINGFACE_TOKEN.".

(** [LiftOff._choose_backend]. *)
Definition _choose_backend (w : World) (self : t) (metadata : Metadata)
  : M Backend :=
  if truthy (api_key self) then
    print "[LiftOff] Using OpenAI backend." ;;
    b <- OpenAIBackend.__init__ w (api_key self) ;;
    ret (BOpenAI b)
  else if truthy (hf_token self) then
    print "[LiftOff] Using HuggingFace Inference API backend." ;;
    b <- HuggingFaceBackend.__init__ w (hf_token self) None ;;
    ret (BHuggingFace b)
  else
    raise (Exn RuntimeError no_backend_message).

(** [output_dir or self.output_dir]. *)
Definition target_root (self : t) (dir : option string) : string :=
  if truthy dir then
    match dir with Some d => d | None => output_dir self end
  else output_dir self.

(** The header of line 189; it opens with U+26A0 U+FE0F, the one text outside
    ASCII among the literals of the program. *)
Definition warning_header : string := "⚠️  Validator warnings:".

(** Lines 186-191 of [create]: the validator's issues are printed. *)
Definition report_issues (w : World) (issues : list string) : M unit :=
  match issues with
  | [] => ret tt
  | _ :: _ =>
      print_text w warning_header ;;
      for_each issues (fun issue => print2_text w "   -" issue)
  end.

(** [LiftOff.create]. *)
Definition create (w : World) (self : t) (prompt : string) (dir : option string)
  : M unit :=
  print "[LiftOff] Parsing intent..." ;;
  metadata <- call (EParseIntent prompt) (parse_intent w prompt) ;;
  print "[LiftOff] Selecting backend..." ;;
  backend <- _choose_backend w self metadata ;;
  print "[LiftOff] Building meta-prompt..." ;;
  meta_prompt <- call (EBuildMetaPrompt prompt metadata)
                   (build_meta_prompt w prompt metadata) ;;
  print "[LiftOff] Generating project from backend..." ;;
  file_tree <- generate_project w backend meta_prompt metadata ;;
  print "[LiftOff] Validating scaffold..." ;;
  issues <- call (EValidate file_tree) (validate_file_tree w file_tree) ;;
  report_issues w issues ;;
  let root := target_root self dir in
  print_text w ("[LiftOff] Writing project files to: " ++ root) ;;
  call (EWrite file_tree root) (construct (write_file_tree w file_tree root) tt) ;;
  print "[LiftOff] Project created successfully.".

(** Lines 174-184 of [create]: everything up to the backend's answer. *)
Definition generation_stage (w : World) (self : t) (prompt : string) : M json :=
  print "[LiftOff] Parsing intent..." ;;
  metadata <- call (EParseIntent prompt) (parse_intent w prompt) ;;
  print "[LiftOff] Selecting backend..." ;;
  backend <- _choose_backend w self metadata ;;
  print "[LiftOff] Building meta-prompt..." ;;
  meta_prompt <- call (EBuildMetaPrompt prompt metadata)
                   (build_meta_prompt w prompt metadata) ;;
  print "[LiftOff] Generating project from backend..." ;;
  generate_project w backend meta_prompt metadata.

(** Lines 186-199 of [create]: validation, then the write. *)
Definition delivery_stage (w : World) (self : t) (dir : option string)
    (file_tree : json) : M unit :=
  print "[LiftOff] Validating scaffold..." ;;
  issues <- call (EValidate file_tree) (validate_file_tree w file_tree) ;;
  report_issues w issues ;;
  let root := target_root self dir in
  print_text w ("[LiftOff] Writing project files to: " ++ root) ;;
  call (EWrite file_tree root) (construct (write_file_tree w file_tree root) tt) ;;
  print "[LiftOff] Project created successfully.".

End LiftOff.

(* ===================================================================== *)
(** ** A concrete world for running the code

    [SampleJson.loads] is a recursive-descent reader of JSON text that follows
    the decoder of Python's [json] module (same grammar, same error messages
    and positions, same limits on nesting and on the digits of an integer) on
    ASCII documents; a [\u] escape of a character above U+00FF is the one
    construct it refuses.  It instantiates [json_loads] when a run is
    evaluated on concrete text. *)

Module SampleJson.

(** A failed scan: text outside the grammar (what was expected, and the index
    it was expected at), more containers inside one another than the
    interpreter has stack for, or an integer of more digits than the
    interpreter converts. *)
Inductive failure : Type :=
| Syntax (what : string) (pos : nat)
| TooDeep (container : string)
| TooManyDigits (digits : nat).

(** How many containers the decoder may enter before the interpreter's
    recursion limit (1000 by default) is reached, the frames of the callers
    taken off. *)
Definition RECURSION_ROOM : nat := 990.

(** [sys.get_int_max_str_digits()]. *)
Definition INT_MAX_STR_DIGITS : nat := 4300.

Definition is_ws (c : ascii) : bool :=
  let n := nat_of_ascii c in
  Nat.eqb n 32 || Nat.eqb n 9 || Nat.eqb n 10 || Nat.eqb n 13.

Definition is_digit (c : ascii) : bool :=
  let n := nat_of_ascii c in Nat.leb 48 n && Nat.leb n 57.

Fixpoint skip_ws (s : string) (pos : nat) : string * nat :=
  match s with
  | String c rest => if is_ws c then skip_ws rest (S pos) else (s, pos)
  | EmptyString => (s, pos)
  end.

Fixpoint line_col (doc : string) (pos line col : nat) : nat * nat :=
  match pos, doc with
  | S p, String c rest =>
      if Ascii.eqb c (ascii_of_nat 10) then line_col rest p (S line) 1
      else line_col rest p line (S col)
  | _, _ => (line, col)
  end.

(** [str(e)] of a [JSONDecodeError]. *)
Definition describe (doc what : string) (pos : nat) : string :=
  let (line, col) := line_col doc pos 1 1 in
  what ++ ": line " ++ str_of_nat line ++ " column " ++ str_of_nat col
    ++ " (char " ++ str_of_nat pos ++ ")".

(** The exception a failed scan of [doc] ends in. *)
Definition error_of (doc : string) (f : failure) : exn :=
  match f with
  | Syntax what pos => Exn JSONDecodeError (describe doc what pos)
  | TooDeep container =>
      Exn RecursionError
        ("maximum recursion depth exceeded while decoding a JSON " ++ container
           ++ " from a unicode string")
  | TooManyDigits digits =>
      Exn ValueError
        ("Exceeds the limit (" ++ str_of_nat INT_MAX_STR_DIGITS
           ++ " digits) for integer string conversion: value has "
           ++ str_of_nat digits
           ++ " digits; use sys.set_int_max_str_digits() to increase the limit")
  end.

Definition snoc (s : string) (c : ascii) : string := s ++ String c EmptyString.

Definition unescape (c : ascii) : option ascii :=
  if Ascii.eqb c dquote then Some dquote else
  match c with
  | "\"%char => Some "\"%char
  | "/"%char => Some "/"%char
  | "b"%char => Some (ascii_of_nat 8)
  | "f"%char => Some (ascii_of_nat 12)
  | "n"%char => Some (ascii_of_nat 10)
  | "r"%char => Some (ascii_of_nat 13)
  | "t"%char => Some (ascii_of_nat 9)
  | _ => None
  end.

(** The value of a hexadecimal digit. *)
Definition hex_value (c : ascii) : option nat :=
  let n := nat_of_ascii c in
  if Nat.leb 48 n && Nat.leb n 57 then Some (n - 48)
  else if Nat.leb 97 n && Nat.leb n 102 then Some (n - 87)
  else if Nat.leb 65 n && Nat.leb n 70 then Some (n - 55)
  else None.

(** The character a [\uXXXX] escape denotes, when it is below U+0100. *)
Definition unicode_escape (h1 h2 h3 h4 : ascii) : option ascii :=
  match hex_value h1, hex_value h2, hex_value h3, hex_value h4 with
  | Some 0, Some 0, Some c, Some d => Some (ascii_of_nat (16 * c + d))
  | _, _, _, _ => None
  end.

Fixpoint scan_string (s : string) (pos start : nat) (acc : string)
  : failure + (string * string * nat) :=
  match s with
  | EmptyString => inl (Syntax "Unterminated string starting at" start)
  | String c rest =>
      if Ascii.eqb c dquote then inr (acc, rest, S pos)
      else if Ascii.eqb c "\" then
        match rest with
        | EmptyString => inl (Syntax "Unterminated string starting at" start)
        | String "u" (String h1 (String h2 (String h3 (String h4 rest')))) =>
            match unicode_escape h1 h2 h3 h4 with
            | Some c' => scan_string rest' (pos + 6) start (snoc acc c')
            | None => inl (Syntax "Invalid \uXXXX escape" (S pos))
            end
        | String e rest' =>
            match unescape e with
            | Some c' => scan_string rest' (S (S pos)) start (snoc acc c')
            | None =>
                if Ascii.eqb e "u" then inl (Syntax "Invalid \uXXXX escape" (S pos))
                else inl (Syntax "Invalid \escape" pos)
            end
        end
      else if Nat.ltb (nat_of_ascii c) 32 then
        inl (Syntax "Invalid control character at" pos)
      else scan_string rest (S pos) start (snoc acc c)
  end.

Fixpoint take_digits (s : string) (pos : nat) (acc : string) : string * string * nat :=
  match s with
  | String c rest =>
      if is_digit c then take_digits rest (S pos) (snoc acc c) else (acc, s, pos)
  | EmptyString => (acc, s, pos)
  end.

Definition Z_of_digits (ds : string) : Z :=
  fold_left (fun z c => (10 * z + Z.of_nat (nat_of_ascii c - 48))%Z)
            (list_ascii_of_string ds) 0%Z.

(** The integer part of a number: [0] or a digit string without a leading
    zero. *)
Definition take_int (s : string) (pos : nat) : option (string * string * nat) :=
  match s with
  | String c rest =>
      if Ascii.eqb c "0" then Some ("0", rest, S pos)
      else if is_digit c then Some (take_digits s pos "")
      else None
  | EmptyString => None
  end.

Definition take_frac (s : string) (pos : nat) : string * string * nat :=
  match s with
  | String "." rest =>
      match take_digits rest (S pos) "" with
      | (EmptyString, _, _) => ("", s, pos)
      | (ds, rest', pos') => ("." ++ ds, rest', pos')
      end
  | _ => ("", s, pos)
  end.

Definition take_exp (s : string) (pos : nat) : string * string * nat :=
  match s with
  | String e rest =>
      if Ascii.eqb e "e" || Ascii.eqb e "E" then
        let '(sign, rest1, pos1) :=
          match rest with
          | String "+" r => ("+", r, S (S pos))
          | String "-" r => ("-", r, S (S pos))
          | _ => ("", rest, S pos)
          end in
        match take_digits rest1 pos1 "" with
        | (EmptyString, _, _) => ("", s, pos)
        | (ds, rest', pos') => (String e sign ++ ds, rest', pos')
        end
      else ("", s, pos)
  | EmptyString => ("", s, pos)
  end.

Definition scanned : Type := (json * string * nat)%type.

(** A number; [None] when no number starts here.  An integer of more than
    [INT_MAX_STR_DIGITS] digits is not converted. *)
Definition scan_number (s : string) (pos : nat) : option (failure + scanned) :=
  let '(neg, s1, pos1) :=
    match s with
    | String "-" r => (true, r, S pos)
    | _ => (false, s, pos)
    end in
  match take_int s1 pos1 with
  | None => None
  | Some (ds, s2, pos2) =>
      let '(frac, s3, pos3) := take_frac s2 pos2 in
      let '(ex, s4, pos4) := take_exp s3 pos3 in
      let sign := if neg then "-" else "" in
      match frac ++ ex with
      | EmptyString =>
          if Nat.ltb INT_MAX_STR_DIGITS (String.length ds) then
            Some (inl (TooManyDigits (String.length ds)))
          else
            Some (inr (JInt (if neg then - Z_of_digits ds else Z_of_digits ds)%Z,
                       s4, pos4))
      | tail => Some (inr (JFloat (sign ++ ds ++ tail), s4, pos4))
      end
  end.

Fixpoint strip_prefix (p s : string) : option string :=
  match p, s with
  | EmptyString, _ => Some s
  | String a p', String b s' => if Ascii.eqb a b then strip_prefix p' s' else None
  | _, _ => None
  end.

Definition scan_literal (s : string) (pos : nat) : option (failure + scanned) :=
  let try_word (word : string) (v : json) : option (failure + scanned) :=
    match strip_prefix word s with
    | Some rest => Some (inr (v, rest, pos + String.length word))
    | None => None
    end in
  match try_word "null" JNull with
  | Some r => Some r
  | None =>
  match try_word "true" (JBool true) with
  | Some r => Some r
  | None =>
  match try_word "false" (JBool false) with
  | Some r => Some r
  | None =>
  match scan_number s pos with
  | Some r => Some r
  | None =>
  match try_word "NaN" (JFloat "nan") with
  | Some r => Some r
  | None =>
  match try_word "Infinity" (JFloat "inf") with
  | Some r => Some r
  | None => try_word "-Infinity" (JFloat "-inf")
  end end end end end end.

(** [room] is the number of containers that may still be entered. *)
Fixpoint scan_once (fuel room : nat) (s : string) (pos : nat) : failure + scanned :=
  match fuel with
  | O => inl (TooDeep "value")
  | S fuel' =>
      match s with
      | String "[" rest =>
          match room with
          | O => inl (TooDeep "array")
          | S room' =>
              let (rest1, pos1) := skip_ws rest (S pos) in
              match rest1 with
              | String "]" rest2 => inr (JArr [], rest2, S pos1)
              | _ => scan_items fuel' room' [] rest1 pos1
              end
          end
      | String "{" rest =>
          match room with
          | O => inl (TooDeep "object")
          | S room' =>
              let (rest1, pos1) := skip_ws rest (S pos) in
              match rest1 with
              | String "}" rest2 => inr (JObj [], rest2, S pos1)
              | String c rest2 =>
                  if Ascii.eqb c dquote then scan_members fuel' room' [] rest2 (S pos1)
                  else inl (Syntax "Expecting property name enclosed in double quotes"
                              pos1)
              | EmptyString =>
                  inl (Syntax "Expecting property name enclosed in double quotes" pos1)
              end
          end
      | String c rest =>
          if Ascii.eqb c dquote then
            match scan_string rest (S pos) pos "" with
            | inl f => inl f
            | inr (str, rest', pos') => inr (JStr str, rest', pos')
            end
          else
            match scan_literal s pos with
            | Some r => r
            | None => inl (Syntax "Expecting value" pos)
            end
      | EmptyString => inl (Syntax "Expecting value" pos)
      end
  end
with scan_items (fuel room : nat) (acc : list json) (s : string) (pos : nat)
  : failure + scanned :=
  match fuel with
  | O => inl (TooDeep "array")
  | S fuel' =>
      match scan_once fuel' room s pos with
      | inl f => inl f
      | inr (v, rest, pos1) =>
          let (rest1, pos2) := skip_ws rest pos1 in
          match rest1 with
          | String "]" rest2 => inr (JArr (acc ++ [v]), rest2, S pos2)
          | String "," rest2 =>
              let (rest3, pos3) := skip_ws rest2 (S pos2) in
              scan_items fuel' room (acc ++ [v]) rest3 pos3
          | _ => inl (Syntax "Expecting ',' delimiter" pos2)
          end
      end
  end
with scan_members (fuel room : nat) (acc : list (string * json)) (s : string)
    (pos : nat) : failure + scanned :=
  match fuel with
  | O => inl (TooDeep "object")
  | S fuel' =>
      match scan_string s pos (pos - 1) "" with
      | inl f => inl f
      | inr (key, rest, pos1) =>
          let (rest1, pos2) := skip_ws rest pos1 in
          match rest1 with
          | String ":" rest2 =>
              let (rest3, pos3) := skip_ws rest2 (S pos2) in
              match scan_once fuel' room rest3 pos3 with
              | inl f => inl f
              | inr (v, rest4, pos4) =>
                  let (rest5, pos5) := skip_ws rest4 pos4 in
                  match rest5 with
                  | String "}" rest6 => inr (JObj (dict_set acc key v), rest6, S pos5)
                  | String "," rest6 =>
                      let (rest7, pos7) := skip_ws rest6 (S pos5) in
                      match rest7 with
                      | String c rest8 =>
                          if Ascii.eqb c dquote then
                            scan_members fuel' room (dict_set acc key v) rest8 (S pos7)
                          else
                            inl (Syntax
                                   "Expecting property name enclosed in double quotes"
                                   pos7)
                      | EmptyString =>
                          inl (Syntax
                                 "Expecting property name enclosed in double quotes"
                                 pos7)
                      end
                  | _ => inl (Syntax "Expecting ',' delimiter" pos5)
                  end
              end
          | _ => inl (Syntax "Expecting ':' delimiter" pos2)
          end
      end
  end.

(** [json.loads(doc)]. *)
Definition loads (doc : string) : exn + json :=
  let (s, pos) := skip_ws doc 0 in
  match scan_once (2 * String.length doc + 2) RECURSION_ROOM s pos with
  | inl f => inl (error_of doc f)
  | inr (v, rest, pos1) =>
      let (rest1, pos2) := skip_ws rest pos1 in
      match rest1 with
      | EmptyString => inr v
      | _ => inl (error_of doc (Syntax "Extra data" pos2))
      end
  end.


(** [repr(v)] of a parsed value, for values that are not text; text inside a
    container is shown in single quotes. *)
Fixpoint repr (v : json) : string :=
  match v with
  | JNull => "None"
  | JBool true => "True"
  | JBool false => "False"
  | JInt z => str_of_Z z
  | JFloat lexeme => lexeme
  | JStr s => "'" ++ s ++ "'"
  | JArr items =>
      "[" ++ (fix join (l : list json) : string :=
                match l with
                | [] => ""
                | [x] => repr x
                | x :: rest => repr x ++ ", " ++ join rest
                end) items ++ "]"
  | JObj members =>
      "{" ++ (fix join (l : list (string * json)) : string :=
                match l with
                | [] => ""
                | [(k, x)] => "'" ++ k ++ "': " ++ repr x
                | (k, x) :: rest => "'" ++ k ++ "': " ++ repr x ++ ", " ++ join rest
                end) members ++ "}"
  end.

End SampleJson.

(** A world given by its environment variables, which optional packages are
    installed, and what each provider answers.  Constructors of provider
    clients succeed, no GPU is present, the standard output encodes every
    text (UTF-8), the intent parser finds nothing, the meta-prompt is the
    prompt, and the writer succeeds. *)
Definition sample_world
    (env : list (string * string))
    (openai_installed hub_installed : bool)
    (local_load : option exn)
    (local_reply : exn + list generation)
    (hosted_text : exn + tg_response)
    (hosted_chat : exn + completion)
    (openai_reply : exn + completion)
    (issues : list string) : World := {|
  getenv name :=
    match find (fun kv => String.eqb (fst kv) name) env with
    | Some kv => Some (snd kv)
    | None => None
    end;
  OpenAI_available := openai_installed;
  OpenAI_new _ := None;
  chat_completions_create _ _ _ _ := openai_reply;
  torch_cuda_is_available := false;
  transformers_pipeline _ _ _ _ := local_load;
  pipeline_call _ _ _ _ := local_reply;
  InferenceClient_available := hub_installed;
  InferenceClient_new _ _ := None;
  text_generation _ _ _ _ := hosted_text;
  chat_completion _ _ _ := hosted_chat;
  json_loads := SampleJson.loads;
  stdout_encode_error _ := None;
  py_repr := SampleJson.repr;
  parse_intent _ := inr [];
  build_meta_prompt prompt _ := inr prompt;
  validate_file_tree _ := inr issues;
  write_file_tree _ _ := None
|}.

(** A standard output whose encoding is ASCII, as under [LANG=C] or
    [PYTHONIOENCODING=ascii].  Text is held in UTF-8; the message of the
    error names the first run of characters outside ASCII, by position
    counted in characters. *)
Module AsciiStdout.

Definition is_ascii (c : ascii) : bool := Nat.ltb (nat_of_ascii c) 128.

(** A byte of the form 10xxxxxx continues a character. *)
Definition is_continuation (c : ascii) : bool :=
  let n := nat_of_ascii c in Nat.leb 128 n && Nat.ltb n 192.

(** The index, in characters, of the first character outside ASCII, and the
    text from there on. *)
Fixpoint first_outside (s : string) (pos : nat) : option (nat * string) :=
  match s with
  | EmptyString => None
  | String c rest =>
      if is_ascii c then first_outside rest (S pos) else Some (pos, s)
  end.

(** How many characters outside ASCII the text starts with. *)
Fixpoint run_length (s : string) : nat :=
  match s with
  | EmptyString => 0
  | String c rest =>
      if is_ascii c then 0
      else (if is_continuation c then 0 else 1) + run_length rest
  end.

(** The code point of the first character of the text. *)
Definition code_point (s : string) : nat :=
  let fix continuation (n : nat) (s : string) (acc : nat) : nat :=
    match n, s with
    | S n', String c rest => continuation n' rest (64 * acc + (nat_of_ascii c - 128))
    | _, _ => acc
    end in
  match s with
  | EmptyString => 0
  | String c rest =>
      let b := nat_of_ascii c in
      if Nat.ltb b 128 then b
      else if Nat.ltb b 224 then continuation 1 rest (b - 192)
      else if Nat.ltb b 240 then continuation 2 rest (b - 224)
      else continuation 3 rest (b - 240)
  end.

Definition hex_digit (n : nat) : ascii :=
  ascii_of_nat (if Nat.ltb n 10 then 48 + n else 87 + n).

(** [n] in hexadecimal on [width] digits. *)
Fixpoint hex (width n : nat) : string :=
  match width with
  | O => ""
  | S width' => hex width' (n / 16) ++ String (hex_digit (n mod 16)) EmptyString
  end.

(** The character as [repr] shows it inside the message. *)
Definition escape (cp : nat) : string :=
  if Nat.ltb cp 256 then "\x" ++ hex 2 cp
  else if Nat.ltb cp (256 * 256) then "\u" ++ hex 4 cp
  else "\U" ++ hex 8 cp.

(** [text.encode('ascii')]: [Some msg] when it raises. *)
Definition encode_error (text : string) : option string :=
  match first_outside text 0 with
  | None => None
  | Some (pos, rest) =>
      match run_length rest with
      | 1 =>
          Some ("'ascii' codec can't encode character '" ++ escape (code_point rest)
                  ++ "' in position " ++ str_of_nat pos
                  ++ ": ordinal not in range(128)")
      | n =>
          Some ("'ascii' codec can't encode characters in position "
                  ++ str_of_nat pos ++ "-" ++ str_of_nat (pos + n - 1)
                  ++ ": ordinal not in range(128)")
      end
  end.

End AsciiStdout.

(** The world [w] with its standard output replaced. *)
Definition with_stdout (codec : string -> option string) (w : World) : World := {|
  getenv := getenv w;
  OpenAI_available := OpenAI_available w;
  OpenAI_new := OpenAI_new w;
  chat_completions_create := chat_completions_create w;
  torch_cuda_is_available := torch_cuda_is_available w;
  transformers_pipeline := transformers_pipeline w;
  pipeline_call := pipeline_call w;
  InferenceClient_available := InferenceClient_available w;
  InferenceClient_new := InferenceClient_new w;
  text_generation := text_generation w;
  chat_completion := chat_completion w;
  json_loads := json_loads w;
  stdout_encode_error := codec;
  py_repr := py_repr w;
  parse_intent := parse_intent w;
  build_meta_prompt := build_meta_prompt w;
  validate_file_tree := validate_file_tree w;
  write_file_tree := write_file_tree w
|}.

(** A chat completion with one choice whose content is [text]. *)
Definition one_choice (text : string) : completion :=
  {| choices := [ {| message_content := PyStr text |} ] |}.

(** An error of a provider's client library. *)
Definition provider_error (class_name msg : string) : exn :=
  Exn (LibraryError class_name) msg.

(* ===================================================================== *)
(** ** Observations on runs *)

(** The run ended by returning [a]. *)
Definition returns {A : Type} (m : M A) (a : A) : Prop := outcome m = inr a.

(** The run ended by raising [e]. *)
Definition raises {A : Type} (m : M A) (e : exn) : Prop := outcome m = inl e.

(** No effect of the run satisfies [bad]. *)
Definition avoids {A : Type} (bad : event -> bool) (m : M A) : Prop :=
  forallb (fun ev => negb (bad ev)) (trace m) = true.

(** A message names [part] when [part] occurs in it. *)
Definition names (msg part : string) : Prop :=
  exists pre post, msg = pre ++ part ++ post.

(** How many effects of a trace satisfy [p]. *)
Definition count_events (p : event -> bool) (tr : list event) : nat :=
  List.length (filter p tr).

Definition is_text_generation (ev : event) : bool :=
  match ev with
  | ETextGeneration _ _ _ _ => true
  | _ => false
  end.

Definition is_chat_completion (ev : event) : bool :=
  match ev with
  | EChatCompletion _ _ _ => true
  | _ => false
  end.

(** The value of [arg or os.getenv(name)]. *)
Definition resolved (w : World) (arg : option string) (name : string)
  : option string :=
  if truthy arg then arg else getenv w name.

(** The result of a constructor, wrapped as the backend object it is. *)
Definition as_backend {B : Type} (wrap : B -> Backend) (r : exn + B)
  : exn + Backend :=
  match r with
  | inl e => inl e
  | inr b => inr (wrap b)
  end.

(** The torch dtype the local load asks for in a world. *)
Definition local_dtype (w : World) : dtype :=
  if torch_cuda_is_available w then float16 else float32.

(* ===================================================================== *)
(** ** Strings: occurrence *)

Lemma prefix_app (p s : string) : prefix p (p ++ s) = true.
Proof.
  induction p as [|c p IH]; simpl.
  - destruct s; reflexivity.
  - destruct (ascii_dec c c) as [_|ne]; [exact IH | contradiction].
Qed.

Lemma prefix_split (p s : string) :
  prefix p s = true -> exists rest, s = p ++ rest.
Proof.
  revert s. induction p as [|c p IH]; intros s H.
  - exists s. reflexivity.
  - destruct s as [|d s]; simpl in H; [discriminate|].
    destruct (ascii_dec c d) as [->|_]; [|discriminate].
    destruct (IH s H) as [rest ->]. exists rest. reflexivity.
Qed.

Lemma contains_unfold (hay needle : string) :
  contains hay needle =
  if prefix needle hay then true
  else match hay with
       | EmptyString => false
       | String _ rest => contains rest needle
       end.
Proof. destruct hay; reflexivity. Qed.

Lemma contains_app (pre part post : string) :
  contains (pre ++ part ++ post) part = true.
Proof.
  induction pre as [|c pre IH].
  - simpl. rewrite contains_unfold, prefix_app. reflexivity.
  - change (String c pre ++ part ++ post) with (String c (pre ++ part ++ post)).
    rewrite contains_unfold.
    destruct (prefix part (String c (pre ++ part ++ post)));
      [reflexivity | exact IH].
Qed.

Lemma contains_names (msg part : string) :
  contains msg part = true <-> names msg part.
Proof.
  split.
  - induction msg as [|c msg IH]; intros H; rewrite contains_unfold in H.
    + destruct (prefix part "") eqn:P; [|discriminate].
      destruct (prefix_split _ _ P) as [rest E].
      exists "", rest. exact E.
    + destruct (prefix part (String c msg)) eqn:P.
      * destruct (prefix_split _ _ P) as [rest E].
        exists "", rest. exact E.
      * destruct (IH H) as (pre & post & ->).
        exists (String c pre), post. reflexivity.
  - intros (pre & post & ->). apply contains_app.
Qed.

Lemma not_names (msg part : string) :
  contains msg part = false -> ~ names msg part.
Proof.
  intros H N. apply contains_names in N. congruence.
Qed.


Lemma append_nil_r (a : string) : a ++ "" = a.
Proof. induction a as [|x a IH]; simpl; [reflexivity | now rewrite IH]. Qed.

Lemma length_app (a b : string) :
  String.length (a ++ b) = String.length a + String.length b.
Proof. induction a as [|c a IH]; simpl; [reflexivity | now rewrite IH]. Qed.

Lemma length_substring_0 (n : nat) (s : string) :
  String.length (substring 0 n s) <= n.
Proof.
  revert s. induction n as [|n IH]; intros [|c s]; simpl; try lia.
  specialize (IH s). lia.
Qed.

(* ===================================================================== *)
(** ** Laws of the run monad *)

Section RunLaws.
Context {A B C : Type}.

Lemma bind_ret_l (a : A) (k : A -> M B) : bind (ret a) k = k a.
Proof. unfold bind, ret. simpl. destruct (k a). reflexivity. Qed.

Lemma bind_raise (e : exn) (k : A -> M B) : bind (raise e) k = raise e.
Proof. reflexivity. Qed.

Lemma bind_returns (m : M A) (k : A -> M B) (tr : list event) (a : A) :
  m = (tr, inr a) -> bind m k = ((tr ++ trace (k a))%list, outcome (k a)).
Proof. intros ->. reflexivity. Qed.

Lemma bind_raises (m : M A) (k : A -> M B) (tr : list event) (e : exn) :
  m = (tr, inl e) -> bind m k = (tr, inl e).
Proof. intros ->. reflexivity. Qed.

Lemma bind_call (ev : event) (r : exn + A) (k : A -> M B) :
  bind (call ev r) k =
  match r with
  | inl e => ([ev], inl e)
  | inr a => (ev :: trace (k a), outcome (k a))
  end.
Proof. destruct r; reflexivity. Qed.

Lemma bind_assoc (m : M A) (f : A -> M B) (g : B -> M C) :
  bind (bind m f) g = bind m (fun x => bind (f x) g).
Proof.
  destruct m as [tr [e|a]]; unfold bind; simpl; [reflexivity|].
  destruct (f a) as [tr' [e|b]]; simpl; [reflexivity|].
  rewrite app_assoc. reflexivity.
Qed.


End RunLaws.

Lemma or_else_truthy (a : option string) (b : M (option string)) :
  truthy a = true -> or_else a b = ret a.
Proof. unfold or_else. now intros ->. Qed.


(** [arg or os.getenv(name)] returns [resolved] and reads the environment
    only when [arg] is falsy. *)
Lemma or_else_getenv (w : World) (arg : option string) (name : string) :
  or_else arg (os_getenv w name) =
  (if truthy arg then [] else [EGetenv name], inr (resolved w arg name)).
Proof. unfold or_else, resolved. destruct (truthy arg); reflexivity. Qed.

(* ===================================================================== *)
(** ** Effects a run avoids *)

Section Avoids.
Variable bad : event -> bool.

Lemma avoids_ret {A : Type} (a : A) : avoids bad (ret a).
Proof. reflexivity. Qed.

Lemma avoids_raise {A : Type} (e : exn) : avoids bad (@raise A e).
Proof. reflexivity. Qed.

Lemma avoids_call {A : Type} (ev : event) (r : exn + A) :
  bad ev = false -> avoids bad (call ev r).
Proof. unfold avoids, call, trace. simpl. now intros ->. Qed.


Lemma avoids_bind {A B : Type} (m : M A) (k : A -> M B) :
  avoids bad m -> (forall a, avoids bad (k a)) -> avoids bad (bind m k).
Proof.
  unfold avoids, trace, bind. destruct m as [tr [e|a]]; simpl; intros H K.
  - exact H.
  - rewrite forallb_app, H. apply K.
Qed.

Lemma avoids_try_except {A : Type} (body : M A) (caught : exn -> bool)
    (handler : exn -> M A) :
  avoids bad body -> (forall e, avoids bad (handler e)) ->
  avoids bad (try_except body caught handler).
Proof.
  unfold avoids, trace, try_except. destruct body as [tr [e|a]]; simpl;
    intros H K; [|exact H].
  destruct (caught e); simpl; [|exact H].
  rewrite forallb_app, H. apply K.
Qed.

Lemma avoids_for_each {A : Type} (xs : list A) (body : A -> M unit) :
  (forall x, avoids bad (body x)) -> avoids bad (for_each xs body).
Proof.
  intros H. induction xs as [|x xs IH]; simpl.
  - apply avoids_ret.
  - apply avoids_bind; [apply H | intros _; exact IH].
Qed.

Lemma avoids_first_item {A : Type} (xs : list A) : avoids bad (first_item xs).
Proof. destruct xs; reflexivity. Qed.

Lemma avoids_py_slice_to (raw : pyobj) (n : nat) : avoids bad (py_slice_to raw n).
Proof. destruct raw; reflexivity. Qed.

Lemma avoids_py_json_loads (w : World) (raw : pyobj) :
  avoids bad (py_json_loads w raw).
Proof.
  destruct raw; try reflexivity. simpl. destruct (json_loads w s); reflexivity.
Qed.

End Avoids.

(** Splits a goal [avoids bad m] along the structure of [m]; what is left are
    the side conditions on single effects. *)
Ltac avoids_step :=
  first
    [ apply avoids_ret
    | apply avoids_raise
    | apply avoids_first_item
    | apply avoids_py_slice_to
    | apply avoids_py_json_loads
    | apply avoids_call; reflexivity
    | apply avoids_bind; [| intros ? ]
    | apply avoids_try_except; [| intros ? ]
    | apply avoids_for_each; intros ? ].

Create HintDb avoids.

(** Splits [avoids bad m] along the structure of [m], by cases on whatever the
    code branches on; runs already dealt with are closed from the hint
    database [avoids]. *)
Ltac avoids_cases :=
  repeat
    first
      [ solve [ auto with avoids nocore ]
      | avoids_step
      | match goal with
        | |- avoids _ (match ?x with _ => _ end) => destruct x eqn:?
        end ].

Lemma bind_ret_map {A B : Type} (m : M A) (f : A -> B) :
  bind m (fun a => ret (f a)) =
  (trace m, match outcome m with inl e => inl e | inr a => inr (f a) end).
Proof.
  destruct m as [tr [e|a]]; unfold bind, trace, outcome; simpl;
    [reflexivity | now rewrite app_nil_r].
Qed.

Lemma bind_print {A : Type} (line : string) (k : unit -> M A) :
  bind (print line) k = (EPrint line :: trace (k tt), outcome (k tt)).
Proof. reflexivity. Qed.

(* ===================================================================== *)
(** ** Backend selection *)

(** Two backend objects are of the same class. *)
Definition same_class (b b' : Backend) : bool :=
  match b, b' with
  | BOpenAI _, BOpenAI _ => true
  | BHuggingFace _, BHuggingFace _ => true
  | _, _ => false
  end.

(** C1. Backend selection follows the fixed priority order.  With an API key
    present (whatever the token) the selector runs the OpenAI backend's
    constructor on that key and returns what it yields; with no key and a
    token present it runs the HuggingFace backend's constructor on that
    token; with neither it raises a [RuntimeError] that performs no effect and
    whose message names [OPENAI_API_KEY], [HUGGINGFACE_TOKEN] and the
    remediation.  The class of the backend returned depends only on which
    credentials are present. *)
Theorem choose_backend_priority (w : World) (self : LiftOff.t) (metadata : Metadata) :
  (truthy (LiftOff.api_key self) = true ->
   LiftOff._choose_backend w self metadata =
   (EPrint "[LiftOff] Using OpenAI backend."
      :: trace (OpenAIBackend.__init__ w (LiftOff.api_key self)),
    as_backend BOpenAI (outcome (OpenAIBackend.__init__ w (LiftOff.api_key self)))))
  /\ (truthy (LiftOff.api_key self) = false ->
      truthy (LiftOff.hf_token self) = true ->
      LiftOff._choose_backend w self metadata =
      (EPrint "[LiftOff] Using HuggingFace Inference API backend."
         :: trace (HuggingFaceBackend.__init__ w (LiftOff.hf_token self) None),
       as_backend BHuggingFace
         (outcome (HuggingFaceBackend.__init__ w (LiftOff.hf_token self) None))))
  /\ (truthy (LiftOff.api_key self) = false ->
      truthy (LiftOff.hf_token self) = false ->
      LiftOff._choose_backend w self metadata =
      ([], inl (Exn RuntimeError LiftOff.no_backend_message)))
  /\ (names LiftOff.no_backend_message "OPENAI_API_KEY"
      /\ names LiftOff.no_backend_message "HUGGINGFACE_TOKEN"
      /\ names LiftOff.no_backend_message "Set OPENAI_API_KEY or HUGGINGFACE_TOKEN.")
  /\ (forall (w' : World) (self' : LiftOff.t) (metadata' : Metadata) (b b' : Backend),
        truthy (LiftOff.api_key self') = truthy (LiftOff.api_key self) ->
        truthy (LiftOff.hf_token self') = truthy (LiftOff.hf_token self) ->
        returns (LiftOff._choose_backend w self metadata) b ->
        returns (LiftOff._choose_backend w' self' metadata') b' ->
        same_class b b' = true).
Proof.
  assert (open_ai : forall w0 s0 m0, truthy (LiftOff.api_key s0) = true ->
            LiftOff._choose_backend w0 s0 m0 =
            (EPrint "[LiftOff] Using OpenAI backend."
               :: trace (OpenAIBackend.__init__ w0 (LiftOff.api_key s0)),
             as_backend BOpenAI
               (outcome (OpenAIBackend.__init__ w0 (LiftOff.api_key s0))))).
  { intros w0 s0 m0 K. unfold LiftOff._choose_backend. rewrite K.
    rewrite bind_print, bind_ret_map. reflexivity. }
  assert (hf : forall w0 s0 m0, truthy (LiftOff.api_key s0) = false ->
            truthy (LiftOff.hf_token s0) = true ->
            LiftOff._choose_backend w0 s0 m0 =
            (EPrint "[LiftOff] Using HuggingFace Inference API backend."
               :: trace (HuggingFaceBackend.__init__ w0 (LiftOff.hf_token s0) None),
             as_backend BHuggingFace
               (outcome (HuggingFaceBackend.__init__ w0 (LiftOff.hf_token s0) None)))).
  { intros w0 s0 m0 K T. unfold LiftOff._choose_backend. rewrite K, T.
    rewrite bind_print, bind_ret_map. reflexivity. }
  assert (none : forall w0 s0 m0, truthy (LiftOff.api_key s0) = false ->
            truthy (LiftOff.hf_token s0) = false ->
            LiftOff._choose_backend w0 s0 m0 =
            ([], inl (Exn RuntimeError LiftOff.no_backend_message))).
  { intros w0 s0 m0 K T. unfold LiftOff._choose_backend. now rewrite K, T. }
  repeat split; auto.
  - apply contains_names. reflexivity.
  - apply contains_names. reflexivity.
  - apply contains_names. reflexivity.
  - intros w' self' metadata' b b' K T R R'. unfold returns in R, R'.
    destruct (truthy (LiftOff.api_key self)) eqn:Ek.
    + rewrite (open_ai _ _ _ Ek) in R. rewrite (open_ai _ _ _ K) in R'.
      unfold outcome, as_backend in R, R'. simpl in R, R'.
      destruct (snd (OpenAIBackend.__init__ w (LiftOff.api_key self)));
        destruct (snd (OpenAIBackend.__init__ w' (LiftOff.api_key self')));
        try discriminate.
      injection R as <-. injection R' as <-. reflexivity.
    + destruct (truthy (LiftOff.hf_token self)) eqn:Et.
      * rewrite (hf _ _ _ Ek Et) in R. rewrite (hf _ _ _ K T) in R'.
        unfold outcome, as_backend in R, R'. simpl in R, R'.
        destruct (snd (HuggingFaceBackend.__init__ w (LiftOff.hf_token self) None));
          destruct (snd (HuggingFaceBackend.__init__ w' (LiftOff.hf_token self') None));
          try discriminate.
        injection R as <-. injection R' as <-. reflexivity.
      * rewrite (none _ _ _ Ek Et) in R. discriminate.
Qed.

(** Concrete runs of the selector: key and token, token only, neither. *)
Lemma choose_backend_priority_runs :
  let w := sample_world [] true true None (inr []) (inr (TGStr "{}"))
             (inr (one_choice "{}")) (inr (one_choice "{}")) [] in
  LiftOff._choose_backend w
    {| LiftOff.api_key := Some "sk-1"; LiftOff.hf_token := Some "hf_1";
       LiftOff.output_dir := "out" |} [] =
  ([EPrint "[LiftOff] Using OpenAI backend."; EOpenAIClient (Some "sk-1")],
   inr (BOpenAI {| OpenAIBackend.client := {| oc_api_key := Some "sk-1" |} |}))
  /\ trace (LiftOff._choose_backend w
       {| LiftOff.api_key := None; LiftOff.hf_token := Some "hf_1";
          LiftOff.output_dir := "out" |} []) =
     [EPrint "[LiftOff] Using HuggingFace Inference API backend.";
      EPrint "[Autoforge] Loading local model: microsoft/Phi-3-mini-4k-instruct";
      EPipelineLoad "text-generation" "microsoft/Phi-3-mini-4k-instruct" "auto"
        float32;
      EPrint "[Autoforge] Local model loaded successfully."]
  /\ LiftOff._choose_backend w
       {| LiftOff.api_key := Some ""; LiftOff.hf_token := None;
          LiftOff.output_dir := "out" |} [] =
     ([], inl (Exn RuntimeError
                 ("No available backend." ++ nl ++ nl
                    ++ "Set OPENAI_API_KEY or HUGGINGFACE_TOKEN."))).
Proof.
  intros w. split; [|split].
  - rewrite (proj1 (choose_backend_priority w _ [])) by reflexivity. reflexivity.
  - rewrite (proj1 (proj2 (choose_backend_priority w _ []))) by reflexivity.
    reflexivity.
  - rewrite (proj1 (proj2 (proj2 (choose_backend_priority w _ []))))
      by reflexivity.
    reflexivity.
Defined.

(* ===================================================================== *)
(** ** Construction of the HuggingFace backend *)

(** The effects of [__init__] up to and including the attempt to load the
    local model. *)
Definition load_attempt (w : World) (token requested : option string)
  : list event :=
  ((if truthy token then [] else [EGetenv "HUGGINGFACE_TOKEN"])
   ++ [EPrint ("[Autoforge] Loading local model: "
                 ++ HuggingFaceBackend.model_or_default requested);
       EPipelineLoad "text-generation"
         (HuggingFaceBackend.model_or_default requested) "auto" (local_dtype w)])%list.

(** The backend object in the Local-Ready state. *)
Definition local_ready (w : World) (token requested : option string)
  : HuggingFaceBackend.t :=
  let mid := HuggingFaceBackend.model_or_default requested in
  {| HuggingFaceBackend.model_id := mid;
     HuggingFaceBackend.hf_token := resolved w token "HUGGINGFACE_TOKEN";
     HuggingFaceBackend.local_pipeline :=
       Some {| pl_task := "text-generation"; pl_model := mid;
               pl_device_map := "auto"; pl_torch_dtype := local_dtype w |};
     HuggingFaceBackend.client := None |}.

(** The backend object in the Remote-Ready state. *)
Definition remote_ready (w : World) (token requested : option string)
  : HuggingFaceBackend.t :=
  let mid := HuggingFaceBackend.model_or_default requested in
  let tok := resolved w token "HUGGINGFACE_TOKEN" in
  {| HuggingFaceBackend.model_id := mid;
     HuggingFaceBackend.hf_token := tok;
     HuggingFaceBackend.local_pipeline := None;
     HuggingFaceBackend.client := Some {| ic_model := mid; ic_token := tok |} |}.

(** The whole of [__init__], case by case. *)
Lemma hf_init_run (w : World) (token requested : option string) :
  let mid := HuggingFaceBackend.model_or_default requested in
  let tok := resolved w token "HUGGINGFACE_TOKEN" in
  HuggingFaceBackend.__init__ w token requested =
  match transformers_pipeline w "text-generation" mid "auto" (local_dtype w) with
  | None =>
      ((load_attempt w token requested
          ++ [EPrint "[Autoforge] Local model loaded successfully."])%list,
       inr (local_ready w token requested))
  | Some e =>
      if is_Exception e then
        if truthy tok && InferenceClient_available w then
          ((load_attempt w token requested
              ++ [EPrint ("[Autoforge] Local model failed to load: " ++ exn_msg e);
                  EPrint "[Autoforge] Falling back to HuggingFace Inference API.";
                  EInferenceClient mid tok])%list,
           construct (InferenceClient_new w mid tok) (remote_ready w token requested))
        else
          ((load_attempt w token requested
              ++ [EPrint ("[Autoforge] Local model failed to load: " ++ exn_msg e)])%list,
           inl (Exn RuntimeError (HuggingFaceBackend.load_failure_message mid)))
      else (load_attempt w token requested, inl e)
  end.
Proof.
  intros mid tok. unfold HuggingFaceBackend.__init__.
  rewrite or_else_getenv. fold mid tok.
  unfold load_attempt, local_ready, remote_ready, HuggingFaceBackend.load_local,
    local_dtype.
  fold mid tok.
  destruct (transformers_pipeline w "text-generation" mid "auto"
              (if torch_cuda_is_available w then float16 else float32))
    as [e|] eqn:L;
    unfold bind, try_except, print2, print, call, ret, raise, construct; simpl.
  - destruct (is_Exception e); simpl.
    + destruct (truthy tok && InferenceClient_available w); simpl.
      * destruct (InferenceClient_new w mid tok); simpl;
          destruct (truthy token); reflexivity.
      * destruct (truthy token); reflexivity.
    + destruct (truthy token); reflexivity.
  - destruct (truthy token); reflexivity.
Qed.

(** A machine on which the local model cannot be loaded: the load runs out of
    GPU memory.  [env] holds the environment variables, [hub] tells whether
    [huggingface_hub] is installed, and the two hosted calls answer
    [hosted_text] and [hosted_chat]. *)
Definition out_of_memory : exn :=
  provider_error "OutOfMemoryError" "CUDA out of memory".

Definition world_without_local_model (env : list (string * string)) (hub : bool)
    (hosted_text : exn + tg_response) (hosted_chat : exn + completion) : World :=
  sample_world env true hub (Some out_of_memory) (inl out_of_memory)
    hosted_text hosted_chat (inr (one_choice "{}")) [].




(* ===================================================================== *)
(** ** Generation through the HuggingFace backend *)

Lemma trace_bind_silent {A B : Type} (m : M A) (k : A -> M B) :
  (forall a, trace (k a) = []) -> trace (bind m k) = trace m.
Proof.
  intros H. destruct m as [tr [e|a]]; unfold bind, trace; simpl; [reflexivity|].
  specialize (H a). unfold trace in H. rewrite H. apply app_nil_r.
Qed.


Lemma hf_parse_output_trace (w : World) (raw : pyobj) :
  trace (HuggingFaceBackend.parse_output w raw) = [].
Proof.
  unfold HuggingFaceBackend.parse_output. destruct raw as [s| |ty]; try reflexivity.
  unfold py_json_loads. destruct (json_loads w s) as [e|v]; [|reflexivity].
  unfold try_except, raise. simpl. destruct (is_JSONDecodeError e); reflexivity.
Qed.

Lemma hf_generate_project_trace (w : World) (self : HuggingFaceBackend.t)
    (prompt : string) (metadata : Metadata) :
  trace (HuggingFaceBackend.generate_project w self prompt metadata) =
  trace (HuggingFaceBackend.raw_output w self prompt).
Proof. apply trace_bind_silent. intros raw. apply hf_parse_output_trace. Qed.

(** The local path performs one in-process call and nothing else. *)
Lemma run_local_trace (w : World) (self : HuggingFaceBackend.t) (p : Pipeline)
    (prompt : string) :
  HuggingFaceBackend.local_pipeline self = Some p ->
  trace (HuggingFaceBackend._run_local w self prompt) =
  [EPipelineCall (pl_model p) prompt 1024 false].
Proof.
  intros L. unfold HuggingFaceBackend._run_local. rewrite L.
  rewrite bind_call. destruct (pipeline_call w p prompt 1024 false) as [e|out];
    [reflexivity|].
  unfold trace. simpl. f_equal. destruct out; reflexivity.
Qed.

(** What the [try] body of [_run_hf] yields from the provider's answer. *)
Definition text_of_response (r : exn + tg_response) : exn + pyobj :=
  match r with
  | inl e => inl e
  | inr (TGStr s) => inr (PyStr s)
  | inr (TGMapping (Some v) _) => inr v
  | inr (TGMapping None as_str) => inr (PyStr as_str)
  | inr (TGOpaque ty) =>
      inl (Exn AttributeError ("'" ++ ty ++ "' object has no attribute 'get'"))
  end.

(** What the [except] body of [_run_hf] yields from the provider's answer. *)
Definition text_of_completion (r : exn + completion) : exn + pyobj :=
  match r with
  | inl e => inl e
  | inr resp =>
      match choices resp with
      | ch :: _ => inr (message_content ch)
      | [] => inl (Exn IndexError "list index out of range")
      end
  end.

Lemma hosted_text_generation_run (w : World) (self : HuggingFaceBackend.t)
    (c : InferenceClient) (prompt : string) :
  HuggingFaceBackend.client self = Some c ->
  HuggingFaceBackend.hosted_text_generation w self prompt =
  ([ETextGeneration (ic_model c) prompt 1024 "0.2"],
   text_of_response (text_generation w c prompt 1024 "0.2")).
Proof.
  intros C. unfold HuggingFaceBackend.hosted_text_generation. rewrite C.
  rewrite bind_call.
  destruct (text_generation w c prompt 1024 "0.2") as [e|[s|[v|] r|ty]];
    reflexivity.
Qed.

Lemma hosted_chat_completion_run (w : World) (self : HuggingFaceBackend.t)
    (c : InferenceClient) (prompt : string) :
  HuggingFaceBackend.client self = Some c ->
  HuggingFaceBackend.hosted_chat_completion w self prompt =
  ([EChatCompletion (ic_model c) [Msg "user" prompt] 1024],
   text_of_completion (chat_completion w c [Msg "user" prompt] 1024)).
Proof.
  intros C. unfold HuggingFaceBackend.hosted_chat_completion. rewrite C.
  rewrite bind_call.
  destruct (chat_completion w c [Msg "user" prompt] 1024) as [e|[[|ch rest]]];
    reflexivity.
Qed.

(** The whole of [_run_hf] on a backend that holds a client. *)
Lemma run_hf_run (w : World) (self : HuggingFaceBackend.t) (c : InferenceClient)
    (prompt : string) :
  HuggingFaceBackend.client self = Some c ->
  HuggingFaceBackend._run_hf w self prompt =
  match text_of_response (text_generation w c prompt 1024 "0.2") with
  | inr text => ([ETextGeneration (ic_model c) prompt 1024 "0.2"], inr text)
  | inl e =>
      if is_Exception e then
        ([ETextGeneration (ic_model c) prompt 1024 "0.2";
          EChatCompletion (ic_model c) [Msg "user" prompt] 1024],
         text_of_completion (chat_completion w c [Msg "user" prompt] 1024))
      else ([ETextGeneration (ic_model c) prompt 1024 "0.2"], inl e)
  end.
Proof.
  intros C. unfold HuggingFaceBackend._run_hf, try_except.
  rewrite (hosted_text_generation_run w self c prompt C),
    (hosted_chat_completion_run w self c prompt C).
  simpl.
  destruct (text_of_response (text_generation w c prompt 1024 "0.2")) as [e|text];
    [|reflexivity].
  destruct (is_Exception e); reflexivity.
Qed.





(** An error raised while fetching the provider's text ends
    [generate_project]: the parsing block is not reached. *)
Lemma hf_generate_project_raises (w : World) (self : HuggingFaceBackend.t)
    (prompt : string) (metadata : Metadata) (e : exn) :
  raises (HuggingFaceBackend.raw_output w self prompt) e ->
  raises (HuggingFaceBackend.generate_project w self prompt metadata) e.
Proof.
  unfold raises, outcome, HuggingFaceBackend.generate_project, bind.
  now intros ->.
Qed.

(** Two provider errors: the hosted model does not serve text generation, and
    the token is rejected. *)
Definition not_supported : exn :=
  provider_error "HfHubHTTPError" "Model does not support text-generation".

Definition unauthorized : exn :=
  provider_error "HfHubHTTPError" "401 Unauthorized".

(** C6, as stated, fails.  Both hosted calls fail; the error that reaches the
    caller is the chat-completion error, its message does not name the
    text-generation error, and nothing of that first error was printed. *)
Lemma run_hf_drops_first_error :
  let w := world_without_local_model [] true (inl not_supported)
             (inl unauthorized) in
  let run := generate_project w (remote_ready w (Some "hf_1") None)
               "a todo app" [] in
  returns (HuggingFaceBackend.__init__ w (Some "hf_1") None)
    (remote_ready w (Some "hf_1") None)
  /\ run = ([ETextGeneration "microsoft/Phi-3-mini-4k-instruct" "a todo app" 1024
              "0.2";
            EChatCompletion "microsoft/Phi-3-mini-4k-instruct"
              [Msg "user" "a todo app"] 1024],
           inl unauthorized)
  /\ ~ (exists e, raises run e /\ names (exn_msg e) (exn_msg not_supported)).
Proof.
  intros w run. split; [reflexivity|]. split; [reflexivity|].
  intros (e & R & N). unfold raises, run in R. vm_compute in R.
  injection R as <-. revert N. apply not_names. vm_compute. reflexivity.
Qed.

(** C6, amended.  On a Remote-Ready backend, when the hosted text-generation
    call fails with an exception, [generate_project] makes exactly one further
    provider call, a chat completion whose only message is the same prompt
    with role "user"; when that retry fails too, its error reaches the caller
    unchanged (the text-generation error is discarded: it is neither printed
    nor part of what is raised). *)
Theorem run_hf_retries_once (w : World) (self : HuggingFaceBackend.t)
    (c : InferenceClient) (prompt : string) (metadata : Metadata) (first : exn) :
  HuggingFaceBackend.local_pipeline self = None ->
  HuggingFaceBackend.client self = Some c ->
  text_generation w c prompt 1024 "0.2" = inl first ->
  is_Exception first = true ->
  let run := generate_project w self prompt metadata in
  trace run = [ETextGeneration (ic_model c) prompt 1024 "0.2";
               EChatCompletion (ic_model c) [Msg "user" prompt] 1024]
  /\ count_events is_text_generation (trace run) = 1
  /\ count_events is_chat_completion (trace run) = 1
  /\ forall second : exn,
       chat_completion w c [Msg "user" prompt] 1024 = inl second ->
       raises run second.
Proof.
  intros L C F E run.
  assert (R : HuggingFaceBackend.raw_output w self prompt =
              ([ETextGeneration (ic_model c) prompt 1024 "0.2";
                EChatCompletion (ic_model c) [Msg "user" prompt] 1024],
               text_of_completion (chat_completion w c [Msg "user" prompt] 1024))).
  { unfold HuggingFaceBackend.raw_output. rewrite L.
    rewrite (run_hf_run w self c prompt C), F. simpl. now rewrite E. }
  assert (T : trace run =
              [ETextGeneration (ic_model c) prompt 1024 "0.2";
               EChatCompletion (ic_model c) [Msg "user" prompt] 1024]).
  { unfold run. simpl generate_project.
    rewrite hf_generate_project_trace, R. reflexivity. }
  repeat apply conj.
  - exact T.
  - rewrite T. reflexivity.
  - rewrite T. reflexivity.
  - intros second S. unfold run. simpl generate_project.
    apply hf_generate_project_raises. unfold raises. rewrite R, S. reflexivity.
Qed.

(** The amended C6 on a machine whose hosted model rejects both calls. *)
Lemma run_hf_retries_once_runs :
  let w := world_without_local_model [] true (inl not_supported)
             (inl unauthorized) in
  raises (generate_project w (remote_ready w (Some "hf_1") None) "a todo app" [])
    unauthorized.
Proof.
  intros w.
  apply (run_hf_retries_once w (remote_ready w (Some "hf_1") None)
           {| ic_model := "microsoft/Phi-3-mini-4k-instruct";
              ic_token := Some "hf_1" |}
           "a todo app" [] not_supported eq_refl eq_refl eq_refl eq_refl).
  reflexivity.
Defined.

(* ===================================================================== *)
(** ** Parsing the provider's text *)

(** How much of the raw text a backend quotes in its error: [raw[:200]] in
    [openai_backend.py], [raw[:400]] in [hf_backend.py]. *)
Definition excerpt_limit (b : Backend) : nat :=
  match b with
  | BOpenAI _ => 200
  | BHuggingFace _ => 400
  end.

(** The message of the [ValueError] a backend raises for a
    [JSONDecodeError] whose text is [parser_msg], [excerpt] being the slice
    of the raw text. *)
Definition invalid_json_message (b : Backend) (parser_msg excerpt : string)
  : string :=
  match b with
  | BOpenAI _ =>
      "OpenAI backend returned non-JSON output: " ++ parser_msg ++ ": " ++ excerpt
  | BHuggingFace _ =>
      "Model did not return valid JSON." ++ nl
        ++ "Error: " ++ parser_msg ++ nl ++ nl
        ++ "Raw output:" ++ nl ++ excerpt ++ "..."
  end.

(** The length of the fixed text of that message. *)
Definition frame_length (b : Backend) : nat :=
  String.length (invalid_json_message b "" "").

(** [s * n] on a Python string. *)
Fixpoint str_repeat (s : string) (n : nat) : string :=
  match n with
  | O => ""
  | S n' => s ++ str_repeat s n'
  end.

Lemma length_str_slice_to (n : nat) (s : string) :
  String.length (str_slice_to n s) = Nat.min n (String.length s).
Proof.
  unfold str_slice_to. revert s.
  induction n as [|n IH]; intros [|c s]; simpl; try reflexivity.
  now rewrite IH.
Qed.

Lemma str_slice_to_prefix (n : nat) (s : string) :
  exists rest, s = str_slice_to n s ++ rest.
Proof.
  unfold str_slice_to. revert s.
  induction n as [|n IH]; intros [|c s]; simpl.
  - now exists "".
  - now exists (String c s).
  - now exists "".
  - destruct (IH s) as [rest E]. exists rest. now rewrite <- E.
Qed.

Lemma invalid_json_message_length (b : Backend) (parser_msg excerpt : string) :
  String.length (invalid_json_message b parser_msg excerpt)
  = frame_length b + String.length parser_msg + String.length excerpt.
Proof.
  destruct b; unfold frame_length, invalid_json_message;
    rewrite ?length_app; simpl; rewrite ?length_app; simpl; lia.
Qed.

Lemma hf_parse_output_invalid (w : World) (raw parser_msg : string) :
  json_loads w raw = inl (Exn JSONDecodeError parser_msg) ->
  HuggingFaceBackend.parse_output w (PyStr raw) =
  ([], inl (Exn ValueError
              ("Model did not return valid JSON." ++ nl
                 ++ "Error: " ++ parser_msg ++ nl ++ nl
                 ++ "Raw output:" ++ nl ++ str_slice_to 400 raw ++ "..."))).
Proof.
  intros P. unfold HuggingFaceBackend.parse_output, py_json_loads.
  rewrite P. reflexivity.
Qed.

Lemma hf_parse_output_valid (w : World) (raw : string) (v : json) :
  json_loads w raw = inr v ->
  HuggingFaceBackend.parse_output w (PyStr raw) = ([], inr v).
Proof.
  intros P. unfold HuggingFaceBackend.parse_output, py_json_loads.
  rewrite P. reflexivity.
Qed.

Lemma openai_parse_output_invalid (w : World) (raw parser_msg : string) :
  json_loads w raw = inl (Exn JSONDecodeError parser_msg) ->
  OpenAIBackend.parse_output w (PyStr raw) =
  ([], inl (Exn ValueError
              ("OpenAI backend returned non-JSON output: " ++ parser_msg
                 ++ ": " ++ str_slice_to 200 raw))).
Proof.
  intros P. unfold OpenAIBackend.parse_output, py_json_loads.
  rewrite P. reflexivity.
Qed.

Lemma openai_parse_output_valid (w : World) (raw : string) (v : json) :
  json_loads w raw = inr v ->
  OpenAIBackend.parse_output w (PyStr raw) =
  match v with
  | JObj members => ([], inr (JObj (OpenAIBackend.coerce_items w members)))
  | _ => ([], inl (Exn ValueError
                     "Expected JSON object mapping file paths to contents"))
  end.
Proof.
  intros P. unfold OpenAIBackend.parse_output, py_json_loads.
  rewrite P. destruct v; reflexivity.
Qed.

(** [generate_project] is the provider stage followed by the parsing block. *)
Lemma generate_project_stages (w : World) (b : Backend) (prompt : string)
    (metadata : Metadata) :
  generate_project w b prompt metadata =
  bind (provider_output w b prompt)
    (fun raw =>
       match b with
       | BOpenAI _ => OpenAIBackend.parse_output w raw
       | BHuggingFace _ => HuggingFaceBackend.parse_output w raw
       end).
Proof. destruct b; reflexivity. Qed.

(** The parsing block of either backend when [json.loads] raises [e]: a
    [JSONDecodeError] is turned into the backend's [ValueError], any other
    exception passes the handler. *)
Lemma parse_output_decoder_raises (w : World) (b : Backend) (raw : string)
    (e : exn) :
  json_loads w raw = inl e ->
  match b with
  | BOpenAI _ => OpenAIBackend.parse_output w (PyStr raw)
  | BHuggingFace _ => HuggingFaceBackend.parse_output w (PyStr raw)
  end =
  ([], inl (if is_JSONDecodeError e then
              Exn ValueError
                (invalid_json_message b (exn_msg e)
                   (str_slice_to (excerpt_limit b) raw))
            else e)).
Proof.
  intros P.
  destruct b as [o|h];
    unfold OpenAIBackend.parse_output, HuggingFaceBackend.parse_output,
      py_json_loads, try_except, bind, raise;
    rewrite P; simpl; destruct (is_JSONDecodeError e); reflexivity.
Qed.

(** C5, as stated, fails.  The provider's text opens 1200 arrays and closes
    none.  It is not JSON, but the decoder runs out of stack before it finds
    that out and raises [RecursionError]; [except json.JSONDecodeError] does
    not catch it, so [generate_project] of either backend ends in that
    [RecursionError], not in the [ValueError] with the decoder's message and
    the excerpt.  An integer of 5000 digits ends the same way in the
    interpreter's own [ValueError], whose message quotes nothing of the raw
    text. *)
Lemma deep_nesting_escapes_handler :
  let raw := str_repeat "[" 1200 in
  let w := sample_world [("HUGGINGFACE_TOKEN", "hf_1")] true true None
             (inr [ {| generated_text := PyStr raw |} ])
             (inr (TGStr raw)) (inr (one_choice raw)) (inr (one_choice raw)) [] in
  let too_deep :=
    Exn RecursionError
      "maximum recursion depth exceeded while decoding a JSON array from a unicode string" in
  let openai := BOpenAI {| OpenAIBackend.client := {| oc_api_key := Some "sk-1" |} |} in
  let local := BHuggingFace (local_ready w (Some "hf_1") None) in
  let hosted := BHuggingFace (remote_ready w (Some "hf_1") None) in
  (forall v, json_loads w raw <> inr v)
  /\ raises (generate_project w openai "a todo app" []) too_deep
  /\ raises (generate_project w local "a todo app" []) too_deep
  /\ raises (generate_project w hosted "a todo app" []) too_deep
  /\ (forall b msg, In b [openai; local; hosted] ->
        ~ raises (generate_project w b "a todo app" []) (Exn ValueError msg))
  /\ (let digits := "[" ++ str_repeat "1" 5000 in
      exists e,
        json_loads w digits = inl e
        /\ is_JSONDecodeError e = false
        /\ exn_cls e = ValueError
        /\ ~ names (exn_msg e) (str_slice_to 200 digits)).
Proof.
  intros raw w too_deep openai local hosted.
  assert (P : json_loads w raw = inl too_deep) by (vm_compute; reflexivity).
  assert (O : generate_project w openai "a todo app" [] =
              ([EChatCompletionsCreate (Some "sk-1") "gpt-4o-mini"
                  [Msg "system" OpenAIBackend.system_instruction;
                   Msg "user" "a todo app"] "0.2"], inl too_deep))
    by (vm_compute; reflexivity).
  assert (L : outcome (generate_project w local "a todo app" []) = inl too_deep)
    by (vm_compute; reflexivity).
  assert (H : outcome (generate_project w hosted "a todo app" []) = inl too_deep)
    by (vm_compute; reflexivity).
  repeat apply conj.
  - intros v E. rewrite P in E. discriminate.
  - unfold raises. rewrite O. reflexivity.
  - exact L.
  - exact H.
  - intros b msg [<-|[<-|[<-|[]]]] R; unfold raises in R;
      [rewrite O in R | rewrite L in R | rewrite H in R]; discriminate.
  - cbv zeta. eexists. split; [vm_compute; reflexivity|].
    split; [reflexivity|]. split; [reflexivity|].
    apply not_names. vm_compute. reflexivity.
Qed.

(** C5, amended.  When [json.loads] raises on the text a backend obtained
    from its provider, [generate_project] returns nothing.  If the exception
    is a [JSONDecodeError], the backend raises a [ValueError] whose message is
    the backend's fixed text around the decoder's message and the first
    [excerpt_limit] characters of the raw text (200 for the OpenAI backend,
    400 for the HuggingFace backend; the whole text when it is shorter), so
    the message grows with the decoder's message but not with the raw text.
    Any other exception of the decoder (a [RecursionError] on deep nesting, a
    [ValueError] on an integer of too many digits) reaches the caller
    unchanged. *)
Theorem json_decode_error_report (w : World) (b : Backend) (prompt : string)
    (metadata : Metadata) (tr : list event) (raw : string) (e : exn) :
  provider_output w b prompt = (tr, inr (PyStr raw)) ->
  json_loads w raw = inl e ->
  let excerpt := str_slice_to (excerpt_limit b) raw in
  let run := generate_project w b prompt metadata in
  (is_JSONDecodeError e = true ->
     run = (tr, inl (Exn ValueError (invalid_json_message b (exn_msg e) excerpt)))
     /\ String.length (invalid_json_message b (exn_msg e) excerpt)
        = frame_length b + String.length (exn_msg e)
          + Nat.min (excerpt_limit b) (String.length raw))
  /\ (is_JSONDecodeError e = false -> run = (tr, inl e))
  /\ (exists rest, raw = excerpt ++ rest)
  /\ String.length excerpt = Nat.min (excerpt_limit b) (String.length raw)
  /\ excerpt_limit b <= 400
  /\ frame_length b <= 57
  /\ (forall v, ~ returns run v).
Proof.
  intros R P excerpt run.
  assert (G : run = (tr, inl (if is_JSONDecodeError e then
                                Exn ValueError
                                  (invalid_json_message b (exn_msg e) excerpt)
                              else e))).
  { unfold run. rewrite generate_project_stages, (bind_returns _ _ _ _ R).
    rewrite (parse_output_decoder_raises w b raw e P).
    unfold trace, outcome. simpl. now rewrite app_nil_r. }
  repeat apply conj.
  - intros J. rewrite J in G. split; [exact G|].
    rewrite invalid_json_message_length. unfold excerpt.
    now rewrite length_str_slice_to.
  - intros J. rewrite J in G. exact G.
  - apply str_slice_to_prefix.
  - apply length_str_slice_to.
  - destruct b; simpl; lia.
  - destruct b; vm_compute; lia.
  - intros v V. unfold returns in V. rewrite G in V. discriminate.
Qed.

(** C5 on a run: the OpenAI backend is answered with prose instead of JSON. *)
Lemma json_decode_error_report_runs :
  let w := sample_world [] true true None (inr []) (inr (TGStr "{}"))
             (inr (one_choice "{}"))
             (inr (one_choice "Sure! Here is your project.")) [] in
  let b := BOpenAI {| OpenAIBackend.client := {| oc_api_key := Some "sk-1" |} |} in
  raises (generate_project w b "a todo app" [])
    (Exn ValueError
       ("OpenAI backend returned non-JSON output: "
          ++ "Expecting value: line 1 column 1 (char 0)"
          ++ ": Sure! Here is your project.")).
Proof.
  intros w b.
  destruct (json_decode_error_report w b "a todo app" []
              [EChatCompletionsCreate (Some "sk-1") "gpt-4o-mini"
                 [Msg "system" OpenAIBackend.system_instruction;
                  Msg "user" "a todo app"] "0.2"]
              "Sure! Here is your project."
              (Exn JSONDecodeError "Expecting value: line 1 column 1 (char 0)")
              eq_refl eq_refl)
    as (J & _).
  destruct (J eq_refl) as (G & _).
  unfold raises. rewrite G. reflexivity.
Defined.

(** A machine that loads the local model, whose pipeline generates [text]. *)
Definition world_with_local_model (text : string) : World :=
  sample_world [("HUGGINGFACE_TOKEN", "hf_1")] true true None
    (inr [ {| generated_text := PyStr text |} ])
    (inr (TGStr text)) (inr (one_choice text)) (inr (one_choice text)) [].

(** Whatever the provider's text parses to is what the HuggingFace backend
    returns. *)
Lemma hf_generate_project_unchecked (w : World) (self : HuggingFaceBackend.t)
    (prompt : string) (metadata : Metadata) (tr : list event) (raw : string)
    (v : json) :
  HuggingFaceBackend.raw_output w self prompt = (tr, inr (PyStr raw)) ->
  json_loads w raw = inr v ->
  HuggingFaceBackend.generate_project w self prompt metadata = (tr, inr v).
Proof.
  intros R P. unfold HuggingFaceBackend.generate_project.
  rewrite (bind_returns _ _ _ _ R), (hf_parse_output_valid w raw v P).
  unfold trace, outcome. simpl. now rewrite app_nil_r.
Qed.

(** C4 does not hold of the HuggingFace backend.  When the model's text is the
    JSON array [[1, 2]], [generate_project] returns that array, and when it is
    the object [{"main.py": 1}] it returns the object with its number: neither
    is a mapping of strings to strings, and in the first run [create] hands
    the array to the file writer.  On the same texts the OpenAI backend
    raises, respectively coerces the number to the string "1". *)
Theorem hf_generate_project_breaks_file_tree :
  let hf (text : string) :=
    generate_project (world_with_local_model text)
      (local_ready (world_with_local_model text) (Some "hf_1") None)
      "a todo app" [] in
  let openai (text : string) :=
    generate_project (world_with_local_model text)
      {| OpenAIBackend.client := {| oc_api_key := Some "sk-1" |} |}
      "a todo app" [] in
  returns (hf "[1, 2]") (JArr [JInt 1; JInt 2])
  /\ is_file_tree (JArr [JInt 1; JInt 2]) = false
  /\ returns (hf ("{" ++ quoted "main.py" ++ ": 1}")) (JObj [("main.py", JInt 1)])
  /\ is_file_tree (JObj [("main.py", JInt 1)]) = false
  /\ In (EWrite (JArr [JInt 1; JInt 2]) "out")
        (trace (LiftOff.create (world_with_local_model "[1, 2]")
                  {| LiftOff.api_key := None; LiftOff.hf_token := Some "hf_1";
                     LiftOff.output_dir := "out" |} "a todo app" None))
  /\ raises (openai "[1, 2]")
       (Exn ValueError "Expected JSON object mapping file paths to contents")
  /\ returns (openai ("{" ++ quoted "main.py" ++ ": 1}")) (JObj [("main.py", JStr "1")]).
Proof.
  intros hf openai. unfold hf, openai. repeat apply conj.
  - vm_compute. reflexivity.
  - reflexivity.
  - vm_compute. reflexivity.
  - reflexivity.
  - vm_compute. repeat (first [left; reflexivity | right]).
  - vm_compute. reflexivity.
  - vm_compute. reflexivity.
Qed.

(* ===================================================================== *)
(** ** The orchestrator *)

Lemma bind_ext {A B : Type} (m : M A) (f g : A -> M B) :
  (forall a, f a = g a) -> bind m f = bind m g.
Proof.
  intros H. unfold bind. destruct (snd m) as [e|a]; [reflexivity|].
  now rewrite H.
Qed.

(** [create] is its generation stage followed by its delivery stage. *)
Lemma create_stages (w : World) (self : LiftOff.t) (prompt : string)
    (dir : option string) :
  LiftOff.create w self prompt dir =
  bind (LiftOff.generation_stage w self prompt) (LiftOff.delivery_stage w self dir).
Proof.
  unfold LiftOff.create, LiftOff.generation_stage.
  repeat (rewrite bind_assoc; apply bind_ext; intros ?).
  reflexivity.
Qed.

(** The texts [report_issues] hands to the standard output, and the lines it
    prints when the stream takes them all. *)
Definition report_texts (issues : list string) : list string :=
  match issues with
  | [] => []
  | _ :: _ => LiftOff.warning_header :: issues
  end.

Definition report_lines (issues : list string) : list event :=
  match issues with
  | [] => []
  | _ :: _ =>
      EPrint LiftOff.warning_header
        :: map (fun issue => EPrint ("   - " ++ issue)) issues
  end.

(** The line of [create] that announces the write. *)
Definition writing_line (root : string) : string :=
  "[LiftOff] Writing project files to: " ++ root.

(** Lines 194-199 of [create]: what follows the report. *)
Definition write_stage (w : World) (self : LiftOff.t) (dir : option string)
    (file_tree : json) : M unit :=
  let root := LiftOff.target_root self dir in
  print_text w (writing_line root) ;;
  call (EWrite file_tree root) (construct (write_file_tree w file_tree root) tt) ;;
  print "[LiftOff] Project created successfully.".

Lemma print_text_run (w : World) (text : string) :
  stdout_encode_error w text = None -> print_text w text = ([EPrint text], inr tt).
Proof. intros E. unfold print_text. now rewrite E. Qed.

(** One line per issue, as long as the stream takes the issues' text. *)
Lemma for_each_print_run (w : World) (issues : list string) :
  (forall issue, In issue issues -> stdout_encode_error w issue = None) ->
  for_each issues (fun issue => print2_text w "   -" issue) =
  (map (fun issue => EPrint ("   - " ++ issue)) issues, inr tt).
Proof.
  induction issues as [|i rest IH]; intros E; [reflexivity|].
  simpl for_each. rewrite IH by (intros issue I; apply E; now right).
  unfold print2_text. rewrite (E i) by now left. reflexivity.
Qed.

(** The loop over the issues prints lines and raises nothing but the
    stream's [UnicodeEncodeError]. *)
Lemma for_each_print_cases (w : World) (issues : list string) :
  let run := for_each issues (fun issue => print2_text w "   -" issue) in
  forallb (fun ev => match ev with EPrint _ => true | _ => false end) (trace run)
  = true
  /\ forall e, raises run e -> exn_cls e = UnicodeEncodeError.
Proof.
  induction issues as [|i rest [IHt IHe]]; cbv zeta.
  - split; [reflexivity|]. intros e R. discriminate.
  - simpl for_each. unfold print2_text at 1 3.
    destruct (stdout_encode_error w i) as [msg|].
    + split; [reflexivity|]. intros e R. unfold raises in R. simpl in R.
      now injection R as <-.
    + unfold print2, print. rewrite bind_call.
      unfold trace, outcome, raises in *. simpl. split; [exact IHt|exact IHe].
Qed.

Lemma report_issues_run (w : World) (issues : list string) :
  (forall text, In text (report_texts issues) -> stdout_encode_error w text = None) ->
  LiftOff.report_issues w issues = (report_lines issues, inr tt).
Proof.
  destruct issues as [|i rest]; intros E; [reflexivity|].
  unfold LiftOff.report_issues.
  rewrite print_text_run by (apply E; now left).
  rewrite for_each_print_run by (intros issue I; apply E; now right).
  reflexivity.
Qed.

(** Where the stream cannot encode the header, nothing of the report is
    printed. *)
Lemma report_issues_header_fails (w : World) (issues : list string) (msg : string) :
  issues <> [] ->
  stdout_encode_error w LiftOff.warning_header = Some msg ->
  LiftOff.report_issues w issues = ([], inl (Exn UnicodeEncodeError msg)).
Proof.
  intros N E. destruct issues as [|i rest]; [contradiction|].
  unfold LiftOff.report_issues, print_text. rewrite E. reflexivity.
Qed.

(** The report performs no effect but printing, and raises nothing but the
    stream's [UnicodeEncodeError]. *)
Lemma report_issues_cases (w : World) (issues : list string) :
  forallb (fun ev => match ev with EPrint _ => true | _ => false end)
    (trace (LiftOff.report_issues w issues)) = true
  /\ forall e, raises (LiftOff.report_issues w issues) e ->
               exn_cls e = UnicodeEncodeError.
Proof.
  destruct issues as [|i rest].
  - split; [reflexivity|]. intros e R. discriminate.
  - unfold LiftOff.report_issues, print_text.
    destruct (stdout_encode_error w LiftOff.warning_header) as [msg|].
    + split; [reflexivity|]. intros e R. unfold raises in R. simpl in R.
      now injection R as <-.
    + unfold print. rewrite bind_call.
      destruct (for_each_print_cases w (i :: rest)) as [T E].
      unfold trace, outcome, raises in *. simpl. split; [exact T|exact E].
Qed.

(** The delivery stage once the validator has answered: the report, then the
    write stage unless the report raised. *)
Lemma delivery_stage_run (w : World) (self : LiftOff.t) (dir : option string)
    (tree : json) (issues : list string) :
  validate_file_tree w tree = inr issues ->
  LiftOff.delivery_stage w self dir tree =
  ((EPrint "[LiftOff] Validating scaffold..." :: EValidate tree
      :: trace (bind (LiftOff.report_issues w issues)
                  (fun _ => write_stage w self dir tree)))%list,
   outcome (bind (LiftOff.report_issues w issues)
              (fun _ => write_stage w self dir tree))).
Proof.
  intros V. unfold LiftOff.delivery_stage.
  rewrite bind_print, bind_call, V. reflexivity.
Qed.

(** The write stage when the stream takes the line that announces the
    write. *)
Lemma write_stage_run (w : World) (self : LiftOff.t) (dir : option string)
    (tree : json) :
  let root := LiftOff.target_root self dir in
  stdout_encode_error w (writing_line root) = None ->
  write_stage w self dir tree =
  ((EPrint (writing_line root) :: EWrite tree root
      :: match write_file_tree w tree root with
         | Some _ => []
         | None => [EPrint "[LiftOff] Project created successfully."]
         end)%list,
   match write_file_tree w tree root with
   | Some e => inl e
   | None => inr tt
   end).
Proof.
  intros root E. unfold write_stage. cbv zeta. fold root.
  rewrite (print_text_run w _ E).
  unfold bind, print, call, construct. simpl.
  destruct (write_file_tree w tree root); reflexivity.
Qed.

(** The write stage writes [tree] and nothing else. *)
Lemma write_stage_writes (w : World) (self : LiftOff.t) (dir : option string)
    (tree : json) (t : json) (r : string) :
  In (EWrite t r) (trace (write_stage w self dir tree)) ->
  t = tree /\ r = LiftOff.target_root self dir.
Proof.
  unfold write_stage, print_text. cbv zeta.
  destruct (stdout_encode_error w _) as [msg|]; [intros []|].
  unfold bind, print, call, construct, trace. simpl.
  destruct (write_file_tree w tree (LiftOff.target_root self dir)); simpl;
    intros [I|[I|I]]; try discriminate; try (now injection I as <- <-);
    try destruct I as [I|[]]; try discriminate; try contradiction.
Qed.

Lemma prints_hold_no_write (tr : list event) (t : json) (r : string) :
  forallb (fun ev => match ev with EPrint _ => true | _ => false end) tr = true ->
  ~ In (EWrite t r) tr.
Proof.
  intros F I. rewrite forallb_forall in F. specialize (F _ I). discriminate.
Qed.

(** C7 does not hold of [create].  The standard output is ASCII and the
    validator reports one issue: printing the header of the report, which
    opens with U+26A0 U+FE0F, raises [UnicodeEncodeError], and [create] stops
    there, after the validation and before the write.  The same request in
    the same world with no issue reported writes the tree and returns: the
    issue alone makes the request fail. *)
Theorem create_aborts_on_reported_issue :
  let reply := "{" ++ quoted "main.py" ++ ": " ++ quoted "print(1)" ++ "}" in
  let world issues :=
    with_stdout AsciiStdout.encode_error
      (sample_world [] true true None (inr []) (inr (TGStr "{}"))
         (inr (one_choice "{}")) (inr (one_choice reply)) issues) in
  let self := {| LiftOff.api_key := Some "sk-1"; LiftOff.hf_token := None;
                 LiftOff.output_dir := "out" |} in
  let tree := JObj [("main.py", JStr "print(1)")] in
  returns (LiftOff.create (world []) self "a todo app" None) tt
  /\ In (EWrite tree "out") (trace (LiftOff.create (world []) self "a todo app" None))
  /\ raises (LiftOff.create (world ["no README"]) self "a todo app" None)
       (Exn UnicodeEncodeError
          "'ascii' codec can't encode characters in position 0-1: ordinal not in range(128)")
  /\ In (EValidate tree)
       (trace (LiftOff.create (world ["no README"]) self "a todo app" None))
  /\ count_events (fun ev => match ev with EWrite _ _ => true | _ => false end)
       (trace (LiftOff.create (world ["no README"]) self "a todo app" None)) = 0.
Proof.
  intros reply world self tree.
  repeat apply conj; vm_compute; try reflexivity.
  - repeat (first [left; reflexivity | right]).
  - repeat (first [left; reflexivity | right]).
Qed.

(** What the validator's issues do to a request.  Once the backend has
    returned a tree and the validator its issues, [create] prints the report
    and goes on, without looking at the issues again, to what it does when
    there is none: it announces the write and calls the writer with exactly
    the tree the backend returned, and ends the way the writer ends.  This
    holds as long as the standard output can encode what is printed.  On a
    stream that cannot encode the header, a non-empty list of issues makes
    [create] stop with [UnicodeEncodeError] before the write.  Whatever the
    report raises is such an error, and then nothing is written. *)
Theorem create_validation_report (w : World) (self : LiftOff.t)
    (prompt : string) (dir : option string) (tr : list event) (tree : json)
    (issues : list string) :
  LiftOff.generation_stage w self prompt = (tr, inr tree) ->
  validate_file_tree w tree = inr issues ->
  let root := LiftOff.target_root self dir in
  let run := LiftOff.create w self prompt dir in
  let checked :=
    (tr ++ [EPrint "[LiftOff] Validating scaffold..."; EValidate tree])%list in
  ((forall text, In text (report_texts issues) -> stdout_encode_error w text = None) ->
     run = ((checked ++ report_lines issues
               ++ trace (write_stage w self dir tree))%list,
            outcome (write_stage w self dir tree))
     /\ (forall issue, In issue issues -> In (EPrint ("   - " ++ issue)) (trace run))
     /\ (stdout_encode_error w (writing_line root) = None ->
           outcome run = match write_file_tree w tree root with
                         | Some e => inl e
                         | None => inr tt
                         end
           /\ exists after,
                trace run = (checked ++ report_lines issues
                               ++ EPrint (writing_line root) :: EWrite tree root
                               :: after)%list))
  /\ (forall msg, issues <> [] ->
        stdout_encode_error w LiftOff.warning_header = Some msg ->
        run = (checked, inl (Exn UnicodeEncodeError msg)))
  /\ (forall e, raises (LiftOff.report_issues w issues) e ->
        exn_cls e = UnicodeEncodeError
        /\ raises run e
        /\ forall t r, In (EWrite t r) (trace run) -> In (EWrite t r) tr)
  /\ (forall t r, In (EWrite t r) (trace run) ->
        In (EWrite t r) tr \/ (t = tree /\ r = root)).
Proof.
  intros G V root run checked.
  assert (R : run =
    ((checked ++ trace (bind (LiftOff.report_issues w issues)
                          (fun _ => write_stage w self dir tree)))%list,
     outcome (bind (LiftOff.report_issues w issues)
                (fun _ => write_stage w self dir tree)))).
  { unfold run, checked. rewrite create_stages, (bind_returns _ _ _ _ G).
    rewrite (delivery_stage_run w self dir tree issues V).
    unfold trace, outcome. simpl. rewrite <- app_assoc. reflexivity. }
  destruct (report_issues_cases w issues) as [Pr Cl].
  repeat apply conj.
  - intros E.
    assert (R' : run = ((checked ++ report_lines issues
                           ++ trace (write_stage w self dir tree))%list,
                        outcome (write_stage w self dir tree))).
    { rewrite R, (report_issues_run w issues E). reflexivity. }
    split; [exact R'|]. split.
    + intros issue I. rewrite R'. unfold trace at 1. simpl.
      apply in_or_app. right. apply in_or_app. left.
      destruct issues as [|i rest]; [destruct I|].
      right. apply (in_map (fun issue => EPrint ("   - " ++ issue))). exact I.
    + intros W. rewrite R', (write_stage_run w self dir tree W).
      split; [reflexivity|]. eexists. reflexivity.
  - intros msg N E. rewrite R, (report_issues_header_fails w issues msg N E).
    unfold bind, trace, outcome. simpl. now rewrite app_nil_r.
  - intros e Re. split; [exact (Cl e Re)|].
    unfold raises, outcome in Re.
    assert (B : bind (LiftOff.report_issues w issues)
                  (fun _ => write_stage w self dir tree)
                = (trace (LiftOff.report_issues w issues), inl e)).
    { unfold bind. rewrite Re. reflexivity. }
    rewrite B in R. split.
    + unfold raises. rewrite R. reflexivity.
    + intros t r I. rewrite R in I. unfold trace at 1 in I. simpl in I.
      unfold checked in I. rewrite <- app_assoc in I.
      apply in_app_or in I. destruct I as [I|I]; [exact I|exfalso].
      destruct I as [I|[I|I]]; try discriminate.
      exact (prints_hold_no_write _ t r Pr I).
  - intros t r I. rewrite R in I. unfold trace at 1 in I. simpl in I.
    unfold checked in I. rewrite <- app_assoc in I.
    apply in_app_or in I. destruct I as [I|I]; [left; exact I|right].
    destruct I as [I|[I|I]]; try discriminate.
    unfold bind, trace in I.
    destruct (snd (LiftOff.report_issues w issues)) as [e|[]]; simpl in I.
    + exfalso. exact (prints_hold_no_write _ t r Pr I).
    + apply in_app_or in I. destruct I as [I|I].
      * exfalso. exact (prints_hold_no_write _ t r Pr I).
      * exact (write_stage_writes w self dir tree t r I).
Qed.

(** On a UTF-8 terminal: the OpenAI backend returns one file, the validator
    reports two issues, the file is written all the same. *)
Lemma create_validation_report_runs :
  let w := sample_world [] true true None (inr []) (inr (TGStr "{}"))
             (inr (one_choice "{}"))
             (inr (one_choice ("{" ++ quoted "main.py" ++ ": " ++ quoted "print(1)"
                                 ++ "}")))
             ["no README"; "no tests"] in
  let self := {| LiftOff.api_key := Some "sk-1"; LiftOff.hf_token := None;
                 LiftOff.output_dir := "out" |} in
  returns (LiftOff.create w self "a todo app" None) tt
  /\ In (EPrint "   - no README") (trace (LiftOff.create w self "a todo app" None)).
Proof.
  intros w self.
  destruct (create_validation_report w self "a todo app" None
              (fst (LiftOff.generation_stage w self "a todo app"))
              (JObj [("main.py", JStr "print(1)")])
              ["no README"; "no tests"] eq_refl eq_refl)
    as (A & _).
  destruct (A (fun _ _ => eq_refl)) as (_ & P & W).
  destruct (W eq_refl) as (O & _).
  split.
  - exact O.
  - apply P. left. reflexivity.
Defined.

(* ===================================================================== *)
(** ** Credentials and the environment *)

Lemma openai_init_avoids_getenv (w : World) (key : option string) :
  avoids is_getenv_event (OpenAIBackend.__init__ w key).
Proof. unfold OpenAIBackend.__init__. avoids_cases. Qed.

(** Given a truthy token, the HuggingFace constructor does not consult the
    environment: [hf_token or os.getenv(...)] stops at its first operand. *)
Lemma hf_init_avoids_getenv (w : World) (token requested : option string) :
  truthy token = true ->
  avoids is_getenv_event (HuggingFaceBackend.__init__ w token requested).
Proof.
  intros T. unfold HuggingFaceBackend.__init__.
  rewrite (or_else_truthy _ _ T), bind_ret_l.
  unfold HuggingFaceBackend.load_local, print2, print. avoids_cases.
Qed.

#[local] Hint Resolve openai_init_avoids_getenv hf_init_avoids_getenv : avoids.

Lemma choose_backend_avoids_getenv (w : World) (self : LiftOff.t)
    (metadata : Metadata) :
  avoids is_getenv_event (LiftOff._choose_backend w self metadata).
Proof. unfold LiftOff._choose_backend, print. avoids_cases. Qed.

Lemma generate_project_avoids_getenv (w : World) (b : Backend) (prompt : string)
    (metadata : Metadata) :
  avoids is_getenv_event (generate_project w b prompt metadata).
Proof.
  destruct b as [o|h]; simpl generate_project.
  - unfold OpenAIBackend.generate_project, OpenAIBackend.raw_output,
      OpenAIBackend.parse_output.
    avoids_cases.
  - unfold HuggingFaceBackend.generate_project, HuggingFaceBackend.raw_output,
      HuggingFaceBackend.parse_output, HuggingFaceBackend._run_local,
      HuggingFaceBackend._run_hf, HuggingFaceBackend.hosted_text_generation,
      HuggingFaceBackend.hosted_chat_completion.
    avoids_cases.
Qed.

Lemma report_issues_avoids_getenv (w : World) (issues : list string) :
  avoids is_getenv_event (LiftOff.report_issues w issues).
Proof.
  unfold LiftOff.report_issues, print_text, print2_text, print2, print.
  avoids_cases.
Qed.

#[local] Hint Resolve choose_backend_avoids_getenv generate_project_avoids_getenv
  report_issues_avoids_getenv : avoids.

(** C8. Both credentials are settled by [LiftOff.__init__]: each is the
    constructor argument when that is truthy and otherwise the value of its
    environment variable, which is read at most once and only then; and a
    [create] request on any orchestrator object performs no read of the
    environment, neither in the selector nor in either backend's constructor
    or [generate_project]. *)
Theorem credentials_resolved_at_construction (w : World)
    (key token : option string) (dir : string) :
  LiftOff.__init__ w key token dir =
  (((if truthy key then [] else [EGetenv "OPENAI_API_KEY"])
    ++ (if truthy token then [] else [EGetenv "HUGGINGFACE_TOKEN"]))%list,
   inr {| LiftOff.api_key :=
            if truthy key then key else getenv w "OPENAI_API_KEY";
          LiftOff.hf_token :=
            if truthy token then token else getenv w "HUGGINGFACE_TOKEN";
          LiftOff.output_dir := dir |})
  /\ forall (w' : World) (self : LiftOff.t) (prompt : string)
       (d : option string),
       avoids is_getenv_event (LiftOff.create w' self prompt d).
Proof.
  split.
  - unfold LiftOff.__init__. rewrite !or_else_getenv. unfold resolved.
    destruct (truthy key), (truthy token); reflexivity.
  - intros w' self prompt d. unfold LiftOff.create, print_text, print.
    avoids_cases.
Qed.

(** C9. The selector and both backends' [generate_project] ignore their
    [metadata] argument: with everything else the same, two metadata values
    give the same run, effects and result alike. *)
Theorem metadata_not_read (w : World) (self : LiftOff.t) (b : Backend)
    (prompt : string) (m1 m2 : Metadata) :
  LiftOff._choose_backend w self m1 = LiftOff._choose_backend w self m2
  /\ generate_project w b prompt m1 = generate_project w b prompt m2
  /\ (forall o : OpenAIBackend.t,
        OpenAIBackend.generate_project w o prompt m1
        = OpenAIBackend.generate_project w o prompt m2)
  /\ (forall h : HuggingFaceBackend.t,
        HuggingFaceBackend.generate_project w h prompt m1
        = HuggingFaceBackend.generate_project w h prompt m2).
Proof.
  split; [reflexivity|]. split; [destruct b; reflexivity|].
  split; intros ?; reflexivity.
Qed.

(** The orchestrator object with its API key, respectively its token,
    replaced by [None]. *)
Definition without_api_key (self : LiftOff.t) : LiftOff.t :=
  {| LiftOff.api_key := None;
     LiftOff.hf_token := LiftOff.hf_token self;
     LiftOff.output_dir := LiftOff.output_dir self |}.

Definition without_hf_token (self : LiftOff.t) : LiftOff.t :=
  {| LiftOff.api_key := LiftOff.api_key self;
     LiftOff.hf_token := None;
     LiftOff.output_dir := LiftOff.output_dir self |}.

(** C10. An empty-string credential is an absent one.  [LiftOff.__init__]
    given [""] runs exactly as when given [None]: it falls back to the
    environment variable.  And whenever the credential finally held is falsy
    (the variable is unset or empty too), the selector runs exactly as on the
    object that holds [None] in its place. *)
Theorem empty_credential_is_absent (w : World) (key token : option string)
    (dir : string) :
  LiftOff.__init__ w (Some "") token dir = LiftOff.__init__ w None token dir
  /\ LiftOff.__init__ w key (Some "") dir = LiftOff.__init__ w key None dir
  /\ returns (LiftOff.__init__ w (Some "") (Some "") dir)
       {| LiftOff.api_key := getenv w "OPENAI_API_KEY";
          LiftOff.hf_token := getenv w "HUGGINGFACE_TOKEN";
          LiftOff.output_dir := dir |}
  /\ (forall (self : LiftOff.t) (metadata : Metadata),
        truthy (LiftOff.api_key self) = false ->
        LiftOff._choose_backend w self metadata
        = LiftOff._choose_backend w (without_api_key self) metadata)
  /\ (forall (self : LiftOff.t) (metadata : Metadata),
        truthy (LiftOff.hf_token self) = false ->
        LiftOff._choose_backend w self metadata
        = LiftOff._choose_backend w (without_hf_token self) metadata).
Proof.
  split; [reflexivity|]. split; [reflexivity|]. split; [reflexivity|]. split.
  - intros self metadata K. unfold LiftOff._choose_backend, without_api_key.
    simpl. rewrite K. reflexivity.
  - intros self metadata T. unfold LiftOff._choose_backend, without_hf_token.
    simpl. rewrite T. reflexivity.
Qed.

(** C10 on a run: the key is [""], [OPENAI_API_KEY] is set to [""] as well and
    no token exists; selection fails as with no credential at all. *)
Lemma empty_credential_is_absent_runs :
  let w := sample_world [("OPENAI_API_KEY", "")] true true None (inr [])
             (inr (TGStr "{}")) (inr (one_choice "{}")) (inr (one_choice "{}")) [] in
  let self := {| LiftOff.api_key := Some ""; LiftOff.hf_token := None;
                 LiftOff.output_dir := LiftOff.DEFAULT_OUTPUT_DIR |} in
  returns (LiftOff.__init__ w (Some "") None LiftOff.DEFAULT_OUTPUT_DIR) self
  /\ LiftOff._choose_backend w self [] =
     ([], inl (Exn RuntimeError LiftOff.no_backend_message)).
Proof.
  intros w self.
  destruct (empty_credential_is_absent w None None LiftOff.DEFAULT_OUTPUT_DIR)
    as (_ & _ & _ & A & _).
  split; [reflexivity|].
  rewrite (A self [] eq_refl). reflexivity.
Defined.

(* ===================================================================== *)
(** ** The file-tree contract on the OpenAI path *)

Lemma dict_set_all_str (d : list (string * json)) (k text : string) :
  forallb (fun kv => is_str (snd kv)) d = true ->
  forallb (fun kv => is_str (snd kv)) (dict_set d k (JStr text)) = true.
Proof.
  induction d as [|[k' v'] rest IH]; simpl; intros H; [reflexivity|].
  apply andb_prop in H. destruct H as [Hv Hrest].
  destruct (String.eqb k' k); simpl.
  - exact Hrest.
  - rewrite Hv. exact (IH Hrest).
Qed.

Lemma coerce_items_all_str (w : World) (members : list (string * json)) :
  forallb (fun kv => is_str (snd kv)) (OpenAIBackend.coerce_items w members) = true.
Proof.
  unfold OpenAIBackend.coerce_items.
  assert (G : forall acc,
             forallb (fun kv => is_str (snd kv)) acc = true ->
             forallb (fun kv => is_str (snd kv))
               (fold_left
                  (fun d kv => dict_set d (fst kv) (JStr (py_str w (snd kv))))
                  members acc) = true).
  { induction members as [|kv rest IH]; simpl; intros acc H; [exact H|].
    apply IH, dict_set_all_str, H. }
  apply G. reflexivity.
Qed.

(** Whatever the OpenAI backend returns is a mapping of strings to strings,
    and text that parses to anything but an object makes it raise. *)
Theorem openai_generate_project_file_tree (w : World) (self : OpenAIBackend.t)
    (prompt : string) (metadata : Metadata) :
  (forall v : json,
     returns (OpenAIBackend.generate_project w self prompt metadata) v ->
     is_file_tree v = true)
  /\ (forall (tr : list event) (raw : string) (v : json),
        OpenAIBackend.raw_output w self prompt = (tr, inr (PyStr raw)) ->
        json_loads w raw = inr v ->
        is_dict v = false ->
        OpenAIBackend.generate_project w self prompt metadata =
        (tr, inl (Exn ValueError
                    "Expected JSON object mapping file paths to contents"))).
Proof.
  split.
  - intros v. unfold returns, outcome, OpenAIBackend.generate_project, bind.
    destruct (OpenAIBackend.raw_output w self prompt) as [tr [e|raw]]; simpl;
      [discriminate|].
    destruct raw as [text| |ty]; try discriminate.
    destruct (json_loads w text) as [e|parsed] eqn:P.
    + pose proof (parse_output_decoder_raises w (BOpenAI self) text e P) as Q.
      cbv beta iota in Q. rewrite Q. discriminate.
    + rewrite (openai_parse_output_valid w text parsed P).
      destruct parsed; try discriminate.
      simpl. intros R. injection R as <-. apply coerce_items_all_str.
  - intros tr raw v R P D. unfold OpenAIBackend.generate_project.
    rewrite (bind_returns _ _ _ _ R), (openai_parse_output_valid w raw v P).
    destruct v; try discriminate; unfold trace, outcome; simpl;
      now rewrite app_nil_r.
Qed.

(** The OpenAI backend on two answers: an object with a number in it, and an
    array. *)
Lemma openai_generate_project_file_tree_runs :
  is_file_tree (JObj [("main.py", JStr "1")]) = true
  /\ raises
       (OpenAIBackend.generate_project (world_with_local_model "[1, 2]")
          {| OpenAIBackend.client := {| oc_api_key := Some "sk-1" |} |}
          "a todo app" [])
       (Exn ValueError "Expected JSON object mapping file paths to contents").
Proof.
  split.
  - apply (proj1 (openai_generate_project_file_tree
                    (world_with_local_model ("{" ++ quoted "main.py" ++ ": 1}"))
                    {| OpenAIBackend.client := {| oc_api_key := Some "sk-1" |} |}
                    "a todo app" [])).
    reflexivity.
  - unfold raises.
    rewrite (proj2 (openai_generate_project_file_tree
                      (world_with_local_model "[1, 2]")
                      {| OpenAIBackend.client := {| oc_api_key := Some "sk-1" |} |}
                      "a todo app" [])
               [EChatCompletionsCreate (Some "sk-1") "gpt-4o-mini"
                  [Msg "system" OpenAIBackend.system_instruction;
                   Msg "user" "a todo app"] "0.2"]
               "[1, 2]" (JArr [JInt 1; JInt 2]) eq_refl eq_refl eq_refl).
    reflexivity.
Defined.

(** The HuggingFace backend on a local model that answers with an array. *)
Lemma hf_generate_project_unchecked_runs :
  HuggingFaceBackend.generate_project (world_with_local_model "[1, 2]")
    (local_ready (world_with_local_model "[1, 2]") (Some "hf_1") None)
    "a todo app" [] =
  ([EPipelineCall "microsoft/Phi-3-mini-4k-instruct" "a todo app" 1024 false],
   inr (JArr [JInt 1; JInt 2])).
Proof.
  apply (hf_generate_project_unchecked (world_with_local_model "[1, 2]")
           (local_ready (world_with_local_model "[1, 2]") (Some "hf_1") None)
           "a todo app" []
           [EPipelineCall "microsoft/Phi-3-mini-4k-instruct" "a todo app" 1024 false]
           "[1, 2]" (JArr [JInt 1; JInt 2]) eq_refl eq_refl).
Defined.

(* ===================================================================== *)
(** ** Further properties: requests that cannot be served *)

(** Without any credential [create] parses the intent and then stops at the
    selector: it raises the selector's [RuntimeError] (or the parser's own
    error), builds no prompt, constructs no backend, calls no provider and
    writes nothing. *)
Theorem create_without_credentials (w : World) (self : LiftOff.t)
    (prompt : string) (dir : option string) :
  truthy (LiftOff.api_key self) = false ->
  truthy (LiftOff.hf_token self) = false ->
  LiftOff.create w self prompt dir =
  match parse_intent w prompt with
  | inr _ =>
      ([EPrint "[LiftOff] Parsing intent..."; EParseIntent prompt;
        EPrint "[LiftOff] Selecting backend..."],
       inl (Exn RuntimeError LiftOff.no_backend_message))
  | inl e =>
      ([EPrint "[LiftOff] Parsing intent..."; EParseIntent prompt], inl e)
  end.
Proof.
  intros K T. unfold LiftOff.create.
  rewrite bind_print, bind_call.
  destruct (parse_intent w prompt) as [e|metadata]; [reflexivity|].
  rewrite bind_print. unfold LiftOff._choose_backend. rewrite K, T.
  reflexivity.
Qed.

Lemma create_without_credentials_runs :
  LiftOff.create
    (sample_world [] true true None (inr []) (inr (TGStr "{}"))
       (inr (one_choice "{}")) (inr (one_choice "{}")) [])
    {| LiftOff.api_key := None; LiftOff.hf_token := Some "";
       LiftOff.output_dir := "out" |} "a todo app" None =
  ([EPrint "[LiftOff] Parsing intent..."; EParseIntent "a todo app";
    EPrint "[LiftOff] Selecting backend..."],
   inl (Exn RuntimeError LiftOff.no_backend_message)).
Proof.
  apply (create_without_credentials
           (sample_world [] true true None (inr []) (inr (TGStr "{}"))
              (inr (one_choice "{}")) (inr (one_choice "{}")) [])
           {| LiftOff.api_key := None; LiftOff.hf_token := Some "";
              LiftOff.output_dir := "out" |} "a todo app" None);
    reflexivity.
Defined.

(* ===================================================================== *)
(** ** Further properties: the OpenAI call *)

(** The one request [OpenAIBackend.generate_project] sends. *)
Definition openai_request (self : OpenAIBackend.t) (meta_prompt : string)
  : event :=
  EChatCompletionsCreate (oc_api_key (OpenAIBackend.client self)) "gpt-4o-mini"
    [Msg "system" OpenAIBackend.system_instruction; Msg "user" meta_prompt]
    "0.2".

Lemma openai_parse_output_trace (w : World) (raw : pyobj) :
  trace (OpenAIBackend.parse_output w raw) = [].
Proof.
  unfold OpenAIBackend.parse_output. destruct raw as [s| |ty]; try reflexivity.
  unfold py_json_loads. destruct (json_loads w s) as [e|v].
  - unfold try_except, raise, bind. simpl.
    destruct (is_JSONDecodeError e); reflexivity.
  - destruct v; reflexivity.
Qed.

(** However the call ends, [OpenAIBackend.generate_project] performs exactly
    one effect: a single chat-completion request to model [gpt-4o-mini] at
    temperature 0.2 whose messages are the fixed system instruction and the
    meta-prompt as the user message.  There is no retry: an error of that
    request is what the method raises. *)
Theorem openai_generate_project_single_call (w : World) (self : OpenAIBackend.t)
    (meta_prompt : string) (metadata : Metadata) :
  trace (OpenAIBackend.generate_project w self meta_prompt metadata)
  = [openai_request self meta_prompt]
  /\ forall e : exn,
       chat_completions_create w (OpenAIBackend.client self) "gpt-4o-mini"
         [Msg "system" OpenAIBackend.system_instruction; Msg "user" meta_prompt]
         "0.2" = inl e ->
       raises (OpenAIBackend.generate_project w self meta_prompt metadata) e.
Proof.
  split.
  - unfold OpenAIBackend.generate_project.
    rewrite trace_bind_silent by (intros raw; apply openai_parse_output_trace).
    unfold OpenAIBackend.raw_output. rewrite bind_call.
    destruct (chat_completions_create _ _ _ _ _) as [e|[[|ch rest]]]; reflexivity.
  - intros e F. unfold raises, OpenAIBackend.generate_project,
      OpenAIBackend.raw_output.
    rewrite bind_call, F. reflexivity.
Qed.

(** When the provider answers, only the first choice is read: with no choice
    at all the method raises [IndexError]; with a first choice whose content
    is [None] it raises the [TypeError] of [json.loads], which the handler for
    invalid JSON does not catch; otherwise the result is that of parsing the
    first choice's content, whatever the other choices hold. *)
Theorem openai_generate_project_first_choice (w : World) (self : OpenAIBackend.t)
    (meta_prompt : string) (metadata : Metadata) (resp : completion) :
  chat_completions_create w (OpenAIBackend.client self) "gpt-4o-mini"
    [Msg "system" OpenAIBackend.system_instruction; Msg "user" meta_prompt]
    "0.2" = inr resp ->
  let run := OpenAIBackend.generate_project w self meta_prompt metadata in
  (choices resp = [] ->
   raises run (Exn IndexError "list index out of range"))
  /\ (forall ch rest,
        choices resp = ch :: rest ->
        outcome run = outcome (OpenAIBackend.parse_output w (message_content ch)))
  /\ (forall ch rest,
        choices resp = ch :: rest ->
        message_content ch = PyNone ->
        raises run
          (Exn TypeError
             "the JSON object must be str, bytes or bytearray, not NoneType")).
Proof.
  intros R run.
  assert (first : forall ch rest,
            choices resp = ch :: rest ->
            outcome run = outcome (OpenAIBackend.parse_output w (message_content ch))).
  { intros ch rest C. unfold run, OpenAIBackend.generate_project,
      OpenAIBackend.raw_output.
    rewrite bind_call, R, C. unfold outcome, bind. simpl. reflexivity. }
  repeat apply conj.
  - intros C. unfold raises, run, OpenAIBackend.generate_project,
      OpenAIBackend.raw_output.
    rewrite bind_call, R, C. reflexivity.
  - exact first.
  - intros ch rest C N. unfold raises. rewrite (first ch rest C), N. reflexivity.
Qed.

Lemma openai_generate_project_first_choice_runs :
  raises
    (OpenAIBackend.generate_project
       (sample_world [] true true None (inr []) (inr (TGStr "{}"))
          (inr (one_choice "{}")) (inr {| choices := [] |}) [])
       {| OpenAIBackend.client := {| oc_api_key := Some "sk-1" |} |}
       "a todo app" [])
    (Exn IndexError "list index out of range").
Proof.
  apply (openai_generate_project_first_choice
           (sample_world [] true true None (inr []) (inr (TGStr "{}"))
              (inr (one_choice "{}")) (inr {| choices := [] |}) [])
           {| OpenAIBackend.client := {| oc_api_key := Some "sk-1" |} |}
           "a todo app" [] {| choices := [] |} eq_refl).
  reflexivity.
Defined.

(* ===================================================================== *)
(** ** Further properties: the HuggingFace backend *)

(** Every object [HuggingFaceBackend.__init__] returns is in exactly one of
    the two ready states, and all its parts agree on the model: either it
    holds a pipeline for its model identifier and no client, or it holds no
    pipeline and a client for the same model identifier carrying the
    configured token, which is then truthy.  The model identifier is the
    requested one, or the default when none (or [""]) was requested. *)
Theorem hf_init_ready_state (w : World) (token requested : option string)
    (self : HuggingFaceBackend.t) :
  returns (HuggingFaceBackend.__init__ w token requested) self ->
  HuggingFaceBackend.model_id self = HuggingFaceBackend.model_or_default requested
  /\ (truthy requested = false ->
      HuggingFaceBackend.model_id self = HuggingFaceBackend.LOCAL_MODEL)
  /\ HuggingFaceBackend.hf_token self = resolved w token "HUGGINGFACE_TOKEN"
  /\ ((exists p,
         HuggingFaceBackend.local_pipeline self = Some p
         /\ pl_model p = HuggingFaceBackend.model_id self
         /\ HuggingFaceBackend.client self = None)
      \/ (HuggingFaceBackend.local_pipeline self = None
          /\ truthy (HuggingFaceBackend.hf_token self) = true
          /\ exists c,
               HuggingFaceBackend.client self = Some c
               /\ ic_model c = HuggingFaceBackend.model_id self
               /\ ic_token c = HuggingFaceBackend.hf_token self)).
Proof.
  unfold returns. rewrite hf_init_run. cbv zeta.
  destruct (transformers_pipeline w "text-generation"
              (HuggingFaceBackend.model_or_default requested) "auto" (local_dtype w))
    as [e|].
  - destruct (is_Exception e); [|discriminate].
    destruct (truthy (resolved w token "HUGGINGFACE_TOKEN")) eqn:T; simpl;
      [|discriminate].
    destruct (InferenceClient_available w); simpl; [|discriminate].
    destruct (InferenceClient_new w _ _); simpl; [discriminate|].
    intros R. injection R as <-. simpl. repeat apply conj; try reflexivity.
    + unfold HuggingFaceBackend.model_or_default. now intros ->.
    + right. split; [reflexivity|]. split; [exact T|].
      eexists. repeat split.
  - simpl. intros R. injection R as <-. simpl. repeat apply conj; try reflexivity.
    + unfold HuggingFaceBackend.model_or_default. now intros ->.
    + left. eexists. repeat split.
Qed.

Lemma hf_init_ready_state_runs :
  HuggingFaceBackend.model_id
    (remote_ready
       (world_without_local_model [("HUGGINGFACE_TOKEN", "hf_env")] true
          (inr (TGStr "{}")) (inr (one_choice "{}")))
       None (Some ""))
  = HuggingFaceBackend.LOCAL_MODEL.
Proof.
  apply (hf_init_ready_state
           (world_without_local_model [("HUGGINGFACE_TOKEN", "hf_env")] true
              (inr (TGStr "{}")) (inr (one_choice "{}")))
           None (Some "")
           (remote_ready
              (world_without_local_model [("HUGGINGFACE_TOKEN", "hf_env")] true
                 (inr (TGStr "{}")) (inr (one_choice "{}")))
              None (Some ""))
           eq_refl);
    reflexivity.
Defined.

(** On a backend that holds a pipeline, [generate_project] is one in-process
    call with a budget of 1024 new tokens and sampling off.  A failure of that
    call is raised as it is: there is no fallback to the hosted path at call
    time, whether or not the object also holds a client.  Of the generations
    returned only the first is read; an empty list raises [IndexError]. *)
Theorem hf_local_call_not_retried (w : World) (self : HuggingFaceBackend.t)
    (p : Pipeline) (prompt : string) (metadata : Metadata) :
  HuggingFaceBackend.local_pipeline self = Some p ->
  let run := HuggingFaceBackend.generate_project w self prompt metadata in
  trace run = [EPipelineCall (pl_model p) prompt 1024 false]
  /\ (forall e, pipeline_call w p prompt 1024 false = inl e -> raises run e)
  /\ (pipeline_call w p prompt 1024 false = inr [] ->
      raises run (Exn IndexError "list index out of range"))
  /\ (forall g rest,
        pipeline_call w p prompt 1024 false = inr (g :: rest) ->
        outcome run
        = outcome (HuggingFaceBackend.parse_output w (generated_text g))).
Proof.
  intros L run.
  assert (R : HuggingFaceBackend.raw_output w self prompt =
              ([EPipelineCall (pl_model p) prompt 1024 false],
               match pipeline_call w p prompt 1024 false with
               | inl e => inl e
               | inr [] => inl (Exn IndexError "list index out of range")
               | inr (g :: _) => inr (generated_text g)
               end)).
  { unfold HuggingFaceBackend.raw_output, HuggingFaceBackend._run_local.
    rewrite L, bind_call.
    destruct (pipeline_call w p prompt 1024 false) as [e|[|g rest]]; reflexivity. }
  repeat apply conj.
  - unfold run. rewrite hf_generate_project_trace, R. reflexivity.
  - intros e F. apply hf_generate_project_raises. unfold raises.
    rewrite R, F. reflexivity.
  - intros F. apply hf_generate_project_raises. unfold raises.
    rewrite R, F. reflexivity.
  - intros g rest F. unfold run, HuggingFaceBackend.generate_project.
    rewrite R, F. unfold outcome, bind. reflexivity.
Qed.

(** An object that holds both a pipeline and a client, as no constructor
    builds it. *)
Definition backend_with_both_paths : HuggingFaceBackend.t :=
  {| HuggingFaceBackend.model_id := "gpt2";
     HuggingFaceBackend.hf_token := Some "hf_1";
     HuggingFaceBackend.local_pipeline :=
       Some {| pl_task := "text-generation"; pl_model := "gpt2";
               pl_device_map := "auto"; pl_torch_dtype := float32 |};
     HuggingFaceBackend.client :=
       Some {| ic_model := "gpt2"; ic_token := Some "hf_1" |} |}.

Lemma hf_local_call_not_retried_runs :
  raises
    (HuggingFaceBackend.generate_project
       (world_without_local_model [] true (inr (TGStr "{}")) (inr (one_choice "{}")))
       backend_with_both_paths "a todo app" [])
    out_of_memory.
Proof.
  exact (proj1 (proj2 (hf_local_call_not_retried
                         (world_without_local_model [] true (inr (TGStr "{}"))
                            (inr (one_choice "{}")))
                         backend_with_both_paths
                         {| pl_task := "text-generation"; pl_model := "gpt2";
                            pl_device_map := "auto"; pl_torch_dtype := float32 |}
                         "a todo app" [] eq_refl))
           out_of_memory eq_refl).
Defined.

(** On a backend that holds a client, [_run_hf] sends the text-generation
    request once, and the chat-completion request is sent exactly when the
    [try] body raised an exception derived from [Exception].  That covers a
    failed request and also an answered one whose result is neither a [str]
    nor has a [get] method; an answer that yields text ends the method with
    that text and no second request. *)
Theorem run_hf_retry_condition (w : World) (self : HuggingFaceBackend.t)
    (c : InferenceClient) (prompt : string) :
  HuggingFaceBackend.client self = Some c ->
  let run := HuggingFaceBackend._run_hf w self prompt in
  let first := text_of_response (text_generation w c prompt 1024 "0.2") in
  count_events is_text_generation (trace run) = 1
  /\ (count_events is_chat_completion (trace run) = 1 <->
      exists e, first = inl e /\ is_Exception e = true)
  /\ (count_events is_chat_completion (trace run) = 0 <->
      ~ exists e, first = inl e /\ is_Exception e = true)
  /\ (forall text, first = inr text ->
      run = ([ETextGeneration (ic_model c) prompt 1024 "0.2"], inr text))
  /\ (forall ty, text_generation w c prompt 1024 "0.2" = inr (TGOpaque ty) ->
      run = ([ETextGeneration (ic_model c) prompt 1024 "0.2";
              EChatCompletion (ic_model c) [Msg "user" prompt] 1024],
             text_of_completion (chat_completion w c [Msg "user" prompt] 1024))).
Proof.
  intros C run first. unfold run. rewrite (run_hf_run w self c prompt C).
  assert (opaque : forall ty,
            text_generation w c prompt 1024 "0.2" = inr (TGOpaque ty) ->
            first = inl (Exn AttributeError
                           ("'" ++ ty ++ "' object has no attribute 'get'"))).
  { intros ty F. unfold first. now rewrite F. }
  fold first. clearbody first.
  destruct first as [e|text]; [destruct (is_Exception e) eqn:E|]; simpl.
  - split; [reflexivity|]. split; [|split; [|split]].
    + split; [|reflexivity]. intros _. exists e. split; [reflexivity | exact E].
    + split; [discriminate|]. intros N. exfalso. apply N. exists e.
      split; [reflexivity | exact E].
    + discriminate.
    + reflexivity.
  - split; [reflexivity|]. split; [|split; [|split]].
    + split; [discriminate|]. intros (e' & I & E'). injection I as <-. congruence.
    + split; [|reflexivity]. intros _ (e' & I & E'). injection I as <-. congruence.
    + discriminate.
    + intros ty F. specialize (opaque ty F). injection opaque as ->.
      discriminate.
  - split; [reflexivity|]. split; [|split; [|split]].
    + split; [discriminate|]. intros (e' & I & _). discriminate.
    + split; [|reflexivity]. intros _ (e' & I & _). discriminate.
    + intros text' F. injection F as <-. reflexivity.
    + intros ty F. specialize (opaque ty F). discriminate.
Qed.

(** A hosted model that answers with an object of an unexpected type: the
    answer is discarded and the chat completion is asked as well. *)
Lemma run_hf_retry_condition_runs :
  let w := world_without_local_model [] true (inr (TGOpaque "TextGenerationOutput"))
             (inr (one_choice "{}")) in
  HuggingFaceBackend._run_hf w (remote_ready w (Some "hf_1") None) "a todo app" =
  ([ETextGeneration "microsoft/Phi-3-mini-4k-instruct" "a todo app" 1024 "0.2";
    EChatCompletion "microsoft/Phi-3-mini-4k-instruct" [Msg "user" "a todo app"]
      1024],
   inr (PyStr "{}")).
Proof.
  intros w.
  exact (proj2 (proj2 (proj2 (proj2
           (run_hf_retry_condition w (remote_ready w (Some "hf_1") None)
              {| ic_model := "microsoft/Phi-3-mini-4k-instruct";
                 ic_token := Some "hf_1" |}
              "a todo app" eq_refl))))
           "TextGenerationOutput" eq_refl).
Defined.

(** Neither handler of the HuggingFace backend catches an exception that does
    not derive from [Exception] (a keyboard interrupt): raised by the local
    load it leaves the constructor at once, with no message about a failed
    load and no fallback to the hosted client; raised by the text-generation
    request it leaves [_run_hf] with no chat-completion request. *)
Theorem hf_handlers_pass_base_exceptions (w : World) (e : exn) :
  is_Exception e = false ->
  (forall token requested,
     transformers_pipeline w "text-generation"
       (HuggingFaceBackend.model_or_default requested) "auto" (local_dtype w)
     = Some e ->
     HuggingFaceBackend.__init__ w token requested
     = (load_attempt w token requested, inl e))
  /\ (forall self c prompt,
        HuggingFaceBackend.client self = Some c ->
        text_generation w c prompt 1024 "0.2" = inl e ->
        HuggingFaceBackend._run_hf w self prompt
        = ([ETextGeneration (ic_model c) prompt 1024 "0.2"], inl e)).
Proof.
  intros E. split.
  - intros token requested L. rewrite hf_init_run. cbv zeta. now rewrite L, E.
  - intros self c prompt C F. rewrite (run_hf_run w self c prompt C), F. simpl.
    now rewrite E.
Qed.

Lemma hf_handlers_pass_base_exceptions_runs :
  let interrupt := Exn KeyboardInterrupt "" in
  let w := sample_world [] true true (Some interrupt) (inr []) (inr (TGStr "{}"))
             (inr (one_choice "{}")) (inr (one_choice "{}")) [] in
  HuggingFaceBackend.__init__ w (Some "hf_1") None =
  ([EPrint "[Autoforge] Loading local model: microsoft/Phi-3-mini-4k-instruct";
    EPipelineLoad "text-generation" "microsoft/Phi-3-mini-4k-instruct" "auto"
      float32],
   inl interrupt).
Proof.
  intros interrupt w.
  exact (proj1 (hf_handlers_pass_base_exceptions w interrupt eq_refl)
           (Some "hf_1") None eq_refl).
Defined.

(* ===================================================================== *)
(** ** Further properties: coercion on the OpenAI path *)

(** [str(k): str(v)] applied to one member. *)
Definition coerce_member (w : World) (kv : string * json) : string * json :=
  (fst kv, JStr (py_str w (snd kv))).

Lemma dict_set_fresh (d : list (string * json)) (k : string) (v : json) :
  ~ In k (map fst d) -> dict_set d k v = (d ++ [(k, v)])%list.
Proof.
  induction d as [|[k' v'] rest IH]; simpl; intros N; [reflexivity|].
  destruct (String.eqb_spec k' k) as [->|_].
  - exfalso. apply N. left. reflexivity.
  - rewrite IH; [reflexivity|]. intros I. apply N. right. exact I.
Qed.

Lemma coerce_fold_distinct (w : World) (members acc : list (string * json)) :
  NoDup (map fst acc ++ map fst members) ->
  fold_left (fun d kv => dict_set d (fst kv) (JStr (py_str w (snd kv))))
    members acc
  = (acc ++ map (coerce_member w) members)%list.
Proof.
  revert acc. induction members as [|[k v] rest IH]; simpl; intros acc N.
  - now rewrite app_nil_r.
  - rewrite dict_set_fresh.
    + rewrite IH.
      * rewrite <- app_assoc. reflexivity.
      * rewrite map_app. simpl. rewrite <- app_assoc. exact N.
    + intros I. apply NoDup_remove_2 in N. apply N.
      apply in_or_app. left. exact I.
Qed.

Lemma coerce_items_distinct (w : World) (members : list (string * json)) :
  NoDup (map fst members) ->
  OpenAIBackend.coerce_items w members = map (coerce_member w) members.
Proof.
  intros N. unfold OpenAIBackend.coerce_items.
  rewrite coerce_fold_distinct; [reflexivity | exact N].
Qed.

Lemma coerce_member_text (w : World) (members : list (string * json)) :
  forallb (fun kv => is_str (snd kv)) members = true ->
  map (coerce_member w) members = members.
Proof.
  induction members as [|[k v] rest IH]; simpl; intros H; [reflexivity|].
  apply andb_prop in H. destruct H as [Hv Hrest].
  rewrite (IH Hrest). destruct v; try discriminate. reflexivity.
Qed.

(** When the provider's text parses to an object (a [dict], so its keys are
    distinct), the OpenAI backend returns the same keys in the same order,
    each value replaced by its [str]; an object whose values are all strings
    already is returned exactly as parsed, and coercing twice changes nothing
    more. *)
Theorem openai_generate_project_round_trip (w : World) (self : OpenAIBackend.t)
    (meta_prompt : string) (metadata : Metadata) (tr : list event) (raw : string)
    (members : list (string * json)) :
  OpenAIBackend.raw_output w self meta_prompt = (tr, inr (PyStr raw)) ->
  json_loads w raw = inr (JObj members) ->
  NoDup (map fst members) ->
  OpenAIBackend.generate_project w self meta_prompt metadata
  = (tr, inr (JObj (map (coerce_member w) members)))
  /\ map fst (map (coerce_member w) members) = map fst members
  /\ (is_file_tree (JObj members) = true ->
      OpenAIBackend.generate_project w self meta_prompt metadata
      = (tr, inr (JObj members)))
  /\ OpenAIBackend.coerce_items w (OpenAIBackend.coerce_items w members)
     = OpenAIBackend.coerce_items w members.
Proof.
  intros R P N.
  assert (K : map fst (map (coerce_member w) members) = map fst members).
  { rewrite map_map. reflexivity. }
  assert (G : OpenAIBackend.generate_project w self meta_prompt metadata
              = (tr, inr (JObj (map (coerce_member w) members)))).
  { unfold OpenAIBackend.generate_project.
    rewrite (bind_returns _ _ _ _ R), (openai_parse_output_valid w raw _ P).
    unfold trace, outcome. simpl.
    rewrite app_nil_r, (coerce_items_distinct w members N). reflexivity. }
  repeat apply conj.
  - exact G.
  - exact K.
  - intros F. rewrite G. simpl in F. rewrite (coerce_member_text w members F).
    reflexivity.
  - rewrite (coerce_items_distinct w members N).
    rewrite coerce_items_distinct by (rewrite K; exact N).
    apply coerce_member_text.
    clear. induction members as [|kv rest IH]; [reflexivity | exact IH].
Qed.

Lemma openai_generate_project_round_trip_runs :
  let text := "{" ++ quoted "main.py" ++ ": " ++ quoted "print(1)" ++ ", "
                ++ quoted "README.md" ++ ": " ++ quoted "# todo" ++ "}" in
  OpenAIBackend.generate_project (world_with_local_model text)
    {| OpenAIBackend.client := {| oc_api_key := Some "sk-1" |} |}
    "a todo app" []
  = ([EChatCompletionsCreate (Some "sk-1") "gpt-4o-mini"
        [Msg "system" OpenAIBackend.system_instruction; Msg "user" "a todo app"]
        "0.2"],
     inr (JObj [("main.py", JStr "print(1)"); ("README.md", JStr "# todo")])).
Proof.
  intros text.
  refine (proj1 (proj2 (proj2
            (openai_generate_project_round_trip (world_with_local_model text)
               {| OpenAIBackend.client := {| oc_api_key := Some "sk-1" |} |}
               "a todo app" []
               [EChatCompletionsCreate (Some "sk-1") "gpt-4o-mini"
                  [Msg "system" OpenAIBackend.system_instruction;
                   Msg "user" "a todo app"] "0.2"]
               text
               [("main.py", JStr "print(1)"); ("README.md", JStr "# todo")]
               eq_refl eq_refl _))) eq_refl).
  repeat constructor; simpl; intuition discriminate.
Defined.

(* ===================================================================== *)
(** ** Further properties: what a request does and how often *)

Definition is_write_event (ev : event) : bool :=
  match ev with
  | EWrite _ _ => true
  | _ => false
  end.

(** A request sent to a model, in process or hosted. *)
Definition is_provider_call (ev : event) : bool :=
  match ev with
  | EChatCompletionsCreate _ _ _ _ | EPipelineCall _ _ _ _
  | ETextGeneration _ _ _ _ | EChatCompletion _ _ _ => true
  | _ => false
  end.

Definition is_pipeline_load (ev : event) : bool :=
  match ev with
  | EPipelineLoad _ _ _ _ => true
  | _ => false
  end.

(** Effects of the OpenAI backend, and of the HuggingFace backend. *)
Definition is_openai_event (ev : event) : bool :=
  match ev with
  | EOpenAIClient _ | EChatCompletionsCreate _ _ _ _ => true
  | _ => false
  end.

Definition is_huggingface_event (ev : event) : bool :=
  match ev with
  | EPipelineLoad _ _ _ _ | EPipelineCall _ _ _ _ | EInferenceClient _ _
  | ETextGeneration _ _ _ _ | EChatCompletion _ _ _ => true
  | _ => false
  end.

(** At most [n] effects of the run satisfy [p]. *)
Definition at_most {A : Type} (n : nat) (p : event -> bool) (m : M A) : Prop :=
  count_events p (trace m) <= n.

Lemma count_events_app (p : event -> bool) (a b : list event) :
  count_events p (a ++ b) = count_events p a + count_events p b.
Proof. unfold count_events. now rewrite filter_app, List.length_app. Qed.

Lemma avoids_count (p : event -> bool) {A : Type} (m : M A) :
  avoids p m <-> count_events p (trace m) = 0.
Proof.
  unfold avoids, count_events. induction (trace m) as [|ev tr IH]; simpl.
  - split; reflexivity.
  - destruct (p ev); simpl.
    + split; discriminate.
    + exact IH.
Qed.

Section Budget.
Variable p : event -> bool.

(** The continuation of a [bind] only runs on what the first part returned. *)
Lemma avoids_bind_returned {A B : Type} (m : M A) (k : A -> M B) :
  avoids p m -> (forall a, returns m a -> avoids p (k a)) -> avoids p (bind m k).
Proof.
  unfold avoids, returns, outcome, trace, bind.
  destruct m as [tr [e|a]]; simpl; intros H K; [exact H|].
  rewrite forallb_app, H. apply K. reflexivity.
Qed.

Lemma at_most_avoids {A : Type} (n : nat) (m : M A) : avoids p m -> at_most n p m.
Proof. intros H. apply avoids_count in H. unfold at_most. lia. Qed.

Lemma at_most_call {A : Type} (n : nat) (ev : event) (r : exn + A) :
  at_most (S n) p (call ev r).
Proof.
  unfold at_most, count_events, call, trace. simpl. destruct (p ev); simpl; lia.
Qed.

(** The budget is spent in the first part of a [bind]. *)
Lemma at_most_bind_l {A B : Type} (n : nat) (m : M A) (k : A -> M B) :
  at_most n p m -> (forall a, returns m a -> avoids p (k a)) ->
  at_most n p (bind m k).
Proof.
  unfold at_most, returns, outcome, trace, bind.
  destruct m as [tr [e|a]]; simpl; intros H K; [exact H|].
  rewrite count_events_app.
  specialize (K a eq_refl). apply avoids_count in K. unfold trace in K.
  rewrite K. lia.
Qed.

(** The budget is kept for the rest of a [bind]. *)
Lemma at_most_bind_r {A B : Type} (n : nat) (m : M A) (k : A -> M B) :
  avoids p m -> (forall a, returns m a -> at_most n p (k a)) ->
  at_most n p (bind m k).
Proof.
  unfold at_most, returns, outcome, bind. intros H K.
  apply avoids_count in H. unfold trace in *.
  destruct m as [tr [e|a]]; simpl in *; [lia|].
  rewrite count_events_app, H. apply (K a eq_refl).
Qed.

End Budget.

(** Unfolds the methods of the three source files down to single effects. *)
Ltac unfold_methods :=
  unfold LiftOff.create, LiftOff.generation_stage, LiftOff.delivery_stage,
    LiftOff.report_issues, LiftOff._choose_backend,
    OpenAIBackend.__init__, OpenAIBackend.generate_project,
    OpenAIBackend.raw_output, OpenAIBackend.parse_output,
    HuggingFaceBackend.__init__, HuggingFaceBackend.load_local,
    HuggingFaceBackend.generate_project, HuggingFaceBackend.raw_output,
    HuggingFaceBackend.parse_output, HuggingFaceBackend._run_local,
    HuggingFaceBackend._run_hf, HuggingFaceBackend.hosted_text_generation,
    HuggingFaceBackend.hosted_chat_completion, or_else, os_getenv,
    print_text, print2_text, print2, print.

(** Decides [avoids bad m] for a run [m] made of those methods, by walking
    through the code and checking each effect it may perform. *)
Ltac avoids_methods :=
  unfold_methods;
  repeat
    first
      [ avoids_step
      | match goal with
        | |- avoids _ (generate_project _ ?b _ _) =>
            destruct b; simpl generate_project; unfold_methods
        | |- avoids _ (match ?x with _ => _ end) => destruct x eqn:?
        end ].

Lemma avoids_not_in {A : Type} (bad : event -> bool) (m : M A) (ev : event) :
  avoids bad m -> bad ev = true -> ~ In ev (trace m).
Proof.
  unfold avoids. intros H B I.
  rewrite forallb_forall in H. specialize (H ev I). rewrite B in H. discriminate.
Qed.

Lemma generation_stage_avoids_write (w : World) (self : LiftOff.t)
    (prompt : string) :
  avoids is_write_event (LiftOff.generation_stage w self prompt).
Proof. avoids_methods. Qed.

Lemma delivery_stage_one_write (w : World) (self : LiftOff.t)
    (dir : option string) (tree : json) :
  at_most 1 is_write_event (LiftOff.delivery_stage w self dir tree).
Proof.
  unfold LiftOff.delivery_stage. cbv zeta.
  apply at_most_bind_r; [avoids_methods | intros _ _].
  apply at_most_bind_r; [avoids_methods | intros issues _].
  apply at_most_bind_r; [avoids_methods | intros _ _].
  apply at_most_bind_r; [avoids_methods | intros _ _].
  apply at_most_bind_l; [apply at_most_call | intros _ _; avoids_methods].
Qed.

(** Of the report and what follows it, only the write stage writes. *)
Lemma report_then_write_writes (w : World) (self : LiftOff.t)
    (dir : option string) (tree : json) (issues : list string) (t : json)
    (r : string) :
  In (EWrite t r)
    (trace (bind (LiftOff.report_issues w issues)
              (fun _ => write_stage w self dir tree))) ->
  t = tree /\ r = LiftOff.target_root self dir.
Proof.
  intros I. destruct (report_issues_cases w issues) as [Pr _].
  unfold bind, trace in I.
  destruct (snd (LiftOff.report_issues w issues)) as [e|[]]; simpl in I.
  - exfalso. exact (prints_hold_no_write _ t r Pr I).
  - apply in_app_or in I. destruct I as [I|I].
    + exfalso. exact (prints_hold_no_write _ t r Pr I).
    + exact (write_stage_writes w self dir tree t r I).
Qed.

Lemma delivery_stage_stops (w : World) (self : LiftOff.t) (dir : option string)
    (tree : json) (e : exn) :
  validate_file_tree w tree = inl e ->
  LiftOff.delivery_stage w self dir tree =
  ([EPrint "[LiftOff] Validating scaffold..."; EValidate tree], inl e).
Proof.
  intros V. unfold LiftOff.delivery_stage. rewrite bind_print, bind_call, V.
  reflexivity.
Qed.

(** [create] writes at most once, and only a tree that the generation stage
    returned and the validator has answered for, into the directory given (or
    the orchestrator's own when none, or [""], is given).  So whenever
    anything fails before the write, nothing is written. *)
Theorem create_writes_after_validation (w : World) (self : LiftOff.t)
    (prompt : string) (dir : option string) :
  at_most 1 is_write_event (LiftOff.create w self prompt dir)
  /\ forall (t : json) (r : string),
       In (EWrite t r) (trace (LiftOff.create w self prompt dir)) ->
       r = LiftOff.target_root self dir
       /\ (exists tr, LiftOff.generation_stage w self prompt = (tr, inr t))
       /\ (exists issues, validate_file_tree w t = inr issues).
Proof.
  rewrite create_stages. split.
  - apply at_most_bind_r; [apply generation_stage_avoids_write|].
    intros tree _. apply delivery_stage_one_write.
  - intros t r I.
    pose proof (generation_stage_avoids_write w self prompt) as G.
    destruct (LiftOff.generation_stage w self prompt) as [tr [e|tree]] eqn:S.
    + exfalso. exact (avoids_not_in _ _ (EWrite t r) G eq_refl I).
    + change (In (EWrite t r)
                (tr ++ trace (LiftOff.delivery_stage w self dir tree))%list) in I.
      apply in_app_or in I.
      destruct I as [I|I];
        [exfalso; exact (avoids_not_in _ _ (EWrite t r) G eq_refl I)|].
      destruct (validate_file_tree w tree) as [e|issues] eqn:V.
      * exfalso. rewrite (delivery_stage_stops w self dir tree e V) in I.
        simpl in I. destruct I as [I|[I|[]]]; discriminate.
      * rewrite (delivery_stage_run w self dir tree issues V) in I.
        unfold trace at 1 in I. cbn [fst] in I.
        destruct I as [I|[I|I]]; try discriminate.
        destruct (report_then_write_writes w self dir tree issues t r I)
          as [-> ->].
        split; [reflexivity|].
        split; [exists tr; reflexivity | exists issues; exact V].
Qed.

Lemma choose_backend_returns_class (w : World) (self : LiftOff.t)
    (metadata : Metadata) (b : Backend) :
  returns (LiftOff._choose_backend w self metadata) b ->
  (truthy (LiftOff.api_key self) = true -> exists o, b = BOpenAI o)
  /\ (truthy (LiftOff.api_key self) = false -> exists h, b = BHuggingFace h).
Proof.
  unfold returns, LiftOff._choose_backend.
  destruct (truthy (LiftOff.api_key self)).
  - rewrite bind_print, bind_ret_map. unfold outcome. simpl.
    destruct (snd (OpenAIBackend.__init__ w (LiftOff.api_key self))) as [e|o];
      [discriminate|].
    intros R. injection R as <-. split; [intros _; now exists o | discriminate].
  - destruct (truthy (LiftOff.hf_token self)); [|discriminate].
    rewrite bind_print, bind_ret_map. unfold outcome. simpl.
    destruct (snd (HuggingFaceBackend.__init__ w (LiftOff.hf_token self) None))
      as [e|h]; [discriminate|].
    intros R. injection R as <-. split; [discriminate | intros _; now exists h].
Qed.

(** The backend chosen for a request is the only one the request touches.
    With an API key, [create] performs no effect of the HuggingFace backend
    (no model load, no hosted client, no generation call), whatever goes wrong
    on the OpenAI side and whether or not a token is set; without an API key
    it performs no effect of the OpenAI backend. *)
Theorem create_uses_one_backend (w : World) (self : LiftOff.t) (prompt : string)
    (dir : option string) :
  (truthy (LiftOff.api_key self) = true ->
   avoids is_huggingface_event (LiftOff.create w self prompt dir))
  /\ (truthy (LiftOff.api_key self) = false ->
      avoids is_openai_event (LiftOff.create w self prompt dir)).
Proof.
  split; intros K; unfold LiftOff.create.
  - apply avoids_bind; [avoids_methods | intros _].
    apply avoids_bind; [avoids_methods | intros metadata].
    apply avoids_bind; [avoids_methods | intros _].
    apply avoids_bind_returned.
    + unfold LiftOff._choose_backend. rewrite K. avoids_methods.
    + intros backend R.
      destruct (proj1 (choose_backend_returns_class w self metadata backend R) K)
        as [o ->].
      simpl generate_project. avoids_methods.
  - apply avoids_bind; [avoids_methods | intros _].
    apply avoids_bind; [avoids_methods | intros metadata].
    apply avoids_bind; [avoids_methods | intros _].
    apply avoids_bind_returned.
    + unfold LiftOff._choose_backend. rewrite K. avoids_methods.
    + intros backend R.
      destruct (proj2 (choose_backend_returns_class w self metadata backend R) K)
        as [h ->].
      simpl generate_project. avoids_methods.
Qed.

(** A key is set but the [openai] package is missing, and a token is set as
    well: the request fails on the OpenAI side and never turns to the other
    backend. *)
Lemma create_uses_one_backend_runs :
  avoids is_huggingface_event
    (LiftOff.create
       (sample_world [] false true None (inr []) (inr (TGStr "{}"))
          (inr (one_choice "{}")) (inr (one_choice "{}")) [])
       {| LiftOff.api_key := Some "sk-1"; LiftOff.hf_token := Some "hf_1";
          LiftOff.output_dir := "out" |} "a todo app" None).
Proof.
  apply (proj1 (create_uses_one_backend
                  (sample_world [] false true None (inr []) (inr (TGStr "{}"))
                     (inr (one_choice "{}")) (inr (one_choice "{}")) [])
                  {| LiftOff.api_key := Some "sk-1"; LiftOff.hf_token := Some "hf_1";
                     LiftOff.output_dir := "out" |} "a todo app" None)).
  reflexivity.
Defined.

(* ===================================================================== *)
(** ** Further properties: the budget of a request *)

Definition is_client_construction (ev : event) : bool :=
  match ev with
  | EOpenAIClient _ | EInferenceClient _ _ => true
  | _ => false
  end.

Lemma openai_generate_project_trace (w : World) (self : OpenAIBackend.t)
    (meta_prompt : string) (metadata : Metadata) :
  trace (OpenAIBackend.generate_project w self meta_prompt metadata)
  = [openai_request self meta_prompt].
Proof.
  unfold OpenAIBackend.generate_project.
  rewrite trace_bind_silent by (intros raw; apply openai_parse_output_trace).
  unfold OpenAIBackend.raw_output. rewrite bind_call.
  destruct (chat_completions_create _ _ _ _ _) as [e|[[|ch rest]]]; reflexivity.
Qed.

(** Without a pipeline and without a client [generate_project] reaches no
    provider: both attribute look-ups on [None] fail. *)
Lemma run_hf_without_client (w : World) (self : HuggingFaceBackend.t)
    (prompt : string) :
  HuggingFaceBackend.client self = None ->
  HuggingFaceBackend._run_hf w self prompt =
  ([], inl (Exn AttributeError
              "'NoneType' object has no attribute 'chat_completion'")).
Proof.
  intros C. unfold HuggingFaceBackend._run_hf,
    HuggingFaceBackend.hosted_text_generation,
    HuggingFaceBackend.hosted_chat_completion.
  rewrite C. reflexivity.
Qed.

(** The effects of [generate_project], for every kind of backend object. *)
Lemma generate_project_trace_cases (w : World) (b : Backend) (prompt : string)
    (metadata : Metadata) :
  let tr := trace (generate_project w b prompt metadata) in
  forallb is_provider_call tr = true
  /\ List.length tr <= 2
  /\ match b with
     | BOpenAI _ => List.length tr = 1
     | BHuggingFace h =>
         match HuggingFaceBackend.local_pipeline h, HuggingFaceBackend.client h with
         | Some _, _ => List.length tr = 1
         | None, Some _ => 1 <= List.length tr
         | None, None => tr = []
         end
     end.
Proof.
  destruct b as [o|h]; simpl generate_project; cbv zeta.
  - rewrite openai_generate_project_trace. simpl. repeat split; lia.
  - rewrite hf_generate_project_trace. unfold HuggingFaceBackend.raw_output.
    destruct (HuggingFaceBackend.local_pipeline h) as [p|] eqn:L.
    + rewrite (run_local_trace w h p prompt L). simpl. repeat split; lia.
    + destruct (HuggingFaceBackend.client h) as [c|] eqn:C.
      * rewrite (run_hf_run w h c prompt C).
        destruct (text_of_response _) as [e|text];
          [destruct (is_Exception e)|]; simpl; repeat split; lia.
      * rewrite (run_hf_without_client w h prompt C). simpl. repeat split; lia.
Qed.

(** [generate_project] does nothing but call its provider, at most twice:
    once on the OpenAI backend and on a backend holding a pipeline, once or
    twice on a backend holding only a client.  It never prints, reads the
    environment, loads a model, builds a client or writes. *)
Theorem generate_project_call_budget (w : World) (b : Backend) (prompt : string)
    (metadata : Metadata) :
  let tr := trace (generate_project w b prompt metadata) in
  forallb is_provider_call tr = true
  /\ List.length tr <= 2
  /\ (forall o, b = BOpenAI o -> List.length tr = 1)
  /\ (forall h p, b = BHuggingFace h ->
        HuggingFaceBackend.local_pipeline h = Some p -> List.length tr = 1)
  /\ (forall h c, b = BHuggingFace h ->
        HuggingFaceBackend.local_pipeline h = None ->
        HuggingFaceBackend.client h = Some c ->
        1 <= List.length tr <= 2).
Proof.
  intros tr.
  destruct (generate_project_trace_cases w b prompt metadata) as (P & L & C).
  fold tr in P, L, C. repeat apply conj.
  - exact P.
  - exact L.
  - intros o ->. exact C.
  - intros h p -> Lp. rewrite Lp in C. exact C.
  - intros h c -> Lp Cc. rewrite Lp, Cc in C. lia.
Qed.

(** A hosted model that does not serve text generation: the backend built by
    the fallback sends one or two requests. *)
Lemma generate_project_call_budget_runs :
  let w := world_without_local_model [] true (inl not_supported)
             (inr (one_choice "{}")) in
  let tr := trace (generate_project w
                     (BHuggingFace (remote_ready w (Some "hf_1") None))
                     "a todo app" []) in
  1 <= List.length tr <= 2.
Proof.
  intros w.
  exact (proj2 (proj2 (proj2 (proj2
           (generate_project_call_budget w
              (BHuggingFace (remote_ready w (Some "hf_1") None))
              "a todo app" []))))
           (remote_ready w (Some "hf_1") None)
           {| ic_model := "microsoft/Phi-3-mini-4k-instruct";
              ic_token := Some "hf_1" |}
           eq_refl eq_refl eq_refl).
Defined.

Lemma generate_project_at_most_two (w : World) (b : Backend) (prompt : string)
    (metadata : Metadata) :
  at_most 2 is_provider_call (generate_project w b prompt metadata).
Proof.
  destruct (generate_project_trace_cases w b prompt metadata) as (_ & L & _).
  unfold at_most, count_events. cbv zeta in L.
  pose proof (filter_length_le is_provider_call
                (trace (generate_project w b prompt metadata))).
  lia.
Qed.

Lemma hf_init_budget (w : World) (token requested : option string) :
  at_most 1 is_pipeline_load (HuggingFaceBackend.__init__ w token requested)
  /\ at_most 1 is_client_construction
       (HuggingFaceBackend.__init__ w token requested).
Proof.
  unfold at_most. rewrite hf_init_run. cbv zeta.
  assert (A : count_events is_pipeline_load (load_attempt w token requested) = 1).
  { unfold load_attempt. destruct (truthy token); reflexivity. }
  assert (B : count_events is_client_construction
                (load_attempt w token requested) = 0).
  { unfold load_attempt. destruct (truthy token); reflexivity. }
  destruct (transformers_pipeline w _ _ _ _) as [e|];
    [destruct (is_Exception e);
     [destruct (truthy _ && InferenceClient_available w)|]|];
    unfold trace; cbn [fst]; rewrite ?count_events_app, ?A, ?B;
    unfold count_events; cbn [filter is_pipeline_load is_client_construction
                              List.length];
    split; lia.
Qed.

Lemma choose_backend_budget (w : World) (self : LiftOff.t) (metadata : Metadata) :
  at_most 1 is_pipeline_load (LiftOff._choose_backend w self metadata)
  /\ at_most 1 is_client_construction (LiftOff._choose_backend w self metadata).
Proof.
  unfold LiftOff._choose_backend.
  destruct (truthy (LiftOff.api_key self)).
  - split.
    + apply at_most_avoids. avoids_methods.
    + apply at_most_bind_r; [avoids_methods | intros _ _].
      apply at_most_bind_l; [| intros o _; avoids_methods].
      unfold OpenAIBackend.__init__. destruct (negb (OpenAI_available w)).
      * apply at_most_avoids. avoids_methods.
      * apply at_most_bind_l; [apply at_most_call | intros c _; avoids_methods].
  - destruct (truthy (LiftOff.hf_token self)).
    + split.
      * apply at_most_bind_r; [avoids_methods | intros _ _].
        apply at_most_bind_l; [apply hf_init_budget | intros h _; avoids_methods].
      * apply at_most_bind_r; [avoids_methods | intros _ _].
        apply at_most_bind_l; [apply hf_init_budget | intros h _; avoids_methods].
    + split; apply at_most_avoids; avoids_methods.
Qed.

(** One [create] request attempts at most one load of the local model, builds
    at most one provider client, and sends at most two requests to a model
    (two only when the hosted text generation is followed by the chat
    completion). *)
Theorem create_effect_budget (w : World) (self : LiftOff.t) (prompt : string)
    (dir : option string) :
  at_most 1 is_pipeline_load (LiftOff.create w self prompt dir)
  /\ at_most 1 is_client_construction (LiftOff.create w self prompt dir)
  /\ at_most 2 is_provider_call (LiftOff.create w self prompt dir).
Proof.
  unfold LiftOff.create. repeat apply conj.
  - apply at_most_bind_r; [avoids_methods | intros _ _].
    apply at_most_bind_r; [avoids_methods | intros metadata _].
    apply at_most_bind_r; [avoids_methods | intros _ _].
    apply at_most_bind_l; [apply choose_backend_budget|].
    intros backend _. cbv zeta. avoids_methods.
  - apply at_most_bind_r; [avoids_methods | intros _ _].
    apply at_most_bind_r; [avoids_methods | intros metadata _].
    apply at_most_bind_r; [avoids_methods | intros _ _].
    apply at_most_bind_l; [apply choose_backend_budget|].
    intros backend _. cbv zeta. avoids_methods.
  - apply at_most_bind_r; [avoids_methods | intros _ _].
    apply at_most_bind_r; [avoids_methods | intros metadata _].
    apply at_most_bind_r; [avoids_methods | intros _ _].
    apply at_most_bind_r; [avoids_methods | intros backend _].
    apply at_most_bind_r; [avoids_methods | intros _ _].
    apply at_most_bind_r; [avoids_methods | intros meta_prompt _].
    apply at_most_bind_r; [avoids_methods | intros _ _].
    apply at_most_bind_l; [apply generate_project_at_most_two|].
    intros file_tree _. cbv zeta. avoids_methods.
Qed.
